(** * Keysight tunable laser adapter: [hardware/tunable_laser.py]

    A shallow embedding of the [TunableLaser] class and of the two
    enumerations it uses, followed by the properties of its SCPI traffic.

    - Python values that reach an f-string are [PyVal]s; numbers read from
      the instrument are binary64 floats ([PrimFloat]), as in Python.
    - A method is a computation in the monad [M]: it threads the adapter
      object, may raise a Python exception, and emits the calls it makes on
      the pyvisa session as a trace of [io_event]s.  State changed before an
      exception is raised stays changed.
    - The pyvisa session is an interface ([Instrument]); its calls are
      total here (time-outs of the transport are not modelled).
    - Python's [repr] of a float is a parameter ([repr_float]). *)

From Stdlib Require Import ZArith String Ascii List Bool Lia.
From Stdlib Require Import Floats DecimalString.
Import ListNotations.

Local Open Scope list_scope.
Local Open Scope string_scope.

(** ** The Python layer *)

Module Py.

(** Exceptions.  The first six are the built-in ones the adapter's own
    expressions can raise; [VisaIOError] is what the resource manager
    raises when a session cannot be opened.  [NotConnectedError] and
    [ProtocolError] are the error kinds the specification names; no
    expression of the source raises them. *)
Inductive exn : Type :=
| TypeError
| AttributeError
| KeyError (key : string)
| IndexError
| ValueError
| OverflowError
| VisaIOError
| NotConnectedError
| ProtocolError.

Inductive result (A : Type) : Type :=
| Ok (a : A)
| Raise (e : exn).
Arguments Ok {A} a.
Arguments Raise {A} e.

(** The values a caller can hand to a setter. *)
Inductive PyVal : Type :=
| VNone
| VBool (b : bool)
| VInt (z : Z)
| VFloat (x : float)
| VStr (s : string).

(** [v is True]: identity with the singleton [True]. *)
Definition is_True (v : PyVal) : bool :=
  match v with
  | VBool true => true
  | _ => false
  end.

Definition str_of_Z (z : Z) : string := NilZero.string_of_int (Z.to_int z).

(** [str(v)], which is what [f'{v}'] inserts. *)
Definition py_str (repr_float : float -> string) (v : PyVal) : string :=
  match v with
  | VNone => "None"
  | VBool true => "True"
  | VBool false => "False"
  | VInt z => str_of_Z z
  | VFloat x => repr_float x
  | VStr s => s
  end.

(** [str.upper] on ASCII text. *)
Definition is_lower (c : ascii) : bool :=
  (97 <=? nat_of_ascii c)%nat && (nat_of_ascii c <=? 122)%nat.

Definition upper_char (c : ascii) : ascii :=
  if is_lower c then ascii_of_nat (nat_of_ascii c - 32) else c.

Fixpoint upper (s : string) : string :=
  match s with
  | EmptyString => EmptyString
  | String c r => String (upper_char c) (upper r)
  end.

(** [s.strip('\n')]: newlines removed at both ends. *)
Definition newline : ascii := "010"%char.

Fixpoint lstrip_nl (s : string) : string :=
  match s with
  | EmptyString => EmptyString
  | String c r => if Ascii.eqb c newline then lstrip_nl r else s
  end.

Fixpoint rstrip_nl (s : string) : string :=
  match s with
  | EmptyString => EmptyString
  | String c r =>
      match rstrip_nl r with
      | EmptyString => if Ascii.eqb c newline then EmptyString else String c EmptyString
      | r' => String c r'
      end
  end.

Definition strip_nl (s : string) : string := rstrip_nl (lstrip_nl s).

(** [int(x)] on a float: truncation towards zero. *)
Definition int_of_float (x : float) : result Z :=
  match Prim2SF x with
  | S754_nan => Raise ValueError
  | S754_infinity _ => Raise OverflowError
  | S754_zero _ => Ok 0%Z
  | S754_finite s m e =>
      let a := Z.shiftl (Zpos m) e in
      Ok (if s then (- a)%Z else a)
  end.

(** [int(o)] where [o] is a float or [None]. *)
Definition py_int (o : option float) : result Z :=
  match o with
  | None => Raise TypeError
  | Some x => int_of_float x
  end.

(** [bool(z)] on an int. *)
Definition py_bool (z : Z) : bool := negb (Z.eqb z 0).

(** [o * 1e9] where [o] is a float or [None]. *)
Definition mul_1e9 (o : option float) : result float :=
  match o with
  | None => Raise TypeError
  | Some x => Ok (x * 1e9)%float
  end.

(** [o.upper()] where [o] is a str or [None]. *)
Definition py_upper (o : option string) : result string :=
  match o with
  | None => Raise AttributeError
  | Some s => Ok (upper s)
  end.

(** [l[0]]. *)
Definition item0 {A : Type} (l : list A) : result A :=
  match l with
  | [] => Raise IndexError
  | a :: _ => Ok a
  end.

End Py.
Import Py.

(** ** The enumerations *)

Inductive TriggerOutput : Type :=
| DISABLED
| STFINISHED
| SWFINISHED
| SWSTART.

Inductive SweepMode : Type :=
| STEP
| MAN
| CONT.

Module TriggerOutputEnum.
Definition name (t : TriggerOutput) : string :=
  match t with
  | DISABLED => "DISABLED"
  | STFINISHED => "STFINISHED"
  | SWFINISHED => "SWFINISHED"
  | SWSTART => "SWSTART"
  end.

Definition value (t : TriggerOutput) : Z :=
  match t with
  | DISABLED => 0
  | STFINISHED => 1
  | SWFINISHED => 2
  | SWSTART => 3
  end.

Definition members : list TriggerOutput :=
  [DISABLED; STFINISHED; SWFINISHED; SWSTART].

(** [TriggerOutput[key]]: the member of that name, [KeyError] otherwise. *)
Definition getitem (key : string) : result TriggerOutput :=
  match find (fun t => String.eqb (name t) key) members with
  | Some t => Ok t
  | None => Raise (KeyError key)
  end.
End TriggerOutputEnum.

Module SweepModeEnum.
Definition name (m : SweepMode) : string :=
  match m with
  | STEP => "STEP"
  | MAN => "MAN"
  | CONT => "CONT"
  end.

Definition value (m : SweepMode) : Z :=
  match m with
  | STEP => 0
  | MAN => 1
  | CONT => 2
  end.

Definition members : list SweepMode := [STEP; MAN; CONT].

Definition getitem (key : string) : result SweepMode :=
  match find (fun m => String.eqb (name m) key) members with
  | Some m => Ok m
  | None => Raise (KeyError key)
  end.
End SweepModeEnum.

(** ** The pyvisa session *)

(** The four methods of [TCPIPInstrument] the adapter calls.  Each returns
    the session's next state; the reading ones also return what was read. *)
Class Instrument (D : Type) : Type := {
  dev_write : string -> D -> D;
  dev_read : D -> string * D;
  dev_read_ascii_values : D -> list float * D;
  dev_close : D -> D
}.

(** What crosses the session, in order. *)
Inductive io_event : Type :=
| Wrote (message : string)
| ReadLine (response : string)
| ReadValues (values : list float)
| Closed.

Definition VISA_ADDRESS : string := "TCPIP0::100.65.25.37::inst0::INSTR".

(** ** The adapter *)

Section Adapter.

Context {D : Type} {session : Instrument D}.

(** [visa_rm.open_resource]: a session, or the resource manager's error. *)
Variable open_resource : string -> result D.

(** Python's [repr] of a float, used when a float is formatted. *)
Variable repr_float : float -> string.

(** The attributes [__init__] creates. *)
Record TunableLaser : Type := mkLaser {
  device : option D;
  _wavelength : option float;
  _idn : option string
}.

Definition init : TunableLaser :=
  {| device := None; _wavelength := None; _idn := None |}.

(** A method body: the adapter after the call, what it returned or raised,
    and the events it put on the session. *)
Definition M (A : Type) : Type :=
  TunableLaser -> result A * TunableLaser * list io_event.

Definition ret {A : Type} (a : A) : M A :=
  fun self => (Ok a, self, []).

Definition bind {A B : Type} (m : M A) (k : A -> M B) : M B :=
  fun self =>
    match m self with
    | (Ok a, self1, t1) =>
        match k a self1 with
        | (r, self2, t2) => (r, self2, (t1 ++ t2)%list)
        end
    | (Raise e, self1, t1) => (Raise e, self1, t1)
    end.

(** An expression that may raise. *)
Definition lift {A : Type} (r : result A) : M A :=
  fun self => (r, self, []).

Definition get_device : M (option D) :=
  fun self => (Ok (device self), self, []).

Definition set_device (d : option D) : M unit :=
  fun self =>
    (Ok tt, {| device := d; _wavelength := _wavelength self; _idn := _idn self |}, []).

Definition set__wavelength (w : option float) : M unit :=
  fun self =>
    (Ok tt, {| device := device self; _wavelength := w; _idn := _idn self |}, []).

Definition set__idn (i : option string) : M unit :=
  fun self =>
    (Ok tt, {| device := device self; _wavelength := _wavelength self; _idn := i |}, []).

Definition emit (e : io_event) : M unit :=
  fun self => (Ok tt, self, [e]).

Notation "x <- m ;; k" := (bind m (fun x => k))
  (at level 61, m at next level, right associativity).
Notation "m ;; k" := (bind m (fun _ => k))
  (at level 61, right associativity).

(** [self.device.write(message)] on an open session. *)
Definition visa_write (d : D) (message : string) : M unit :=
  set_device (Some (dev_write message d)) ;;
  emit (Wrote message).

(** [self.device.read()]. *)
Definition visa_read (d : D) : M string :=
  let (s, d') := dev_read d in
  set_device (Some d') ;;
  emit (ReadLine s) ;;
  ret s.

(** [self.device.read_ascii_values()]. *)
Definition visa_read_ascii_values (d : D) : M (list float) :=
  let (l, d') := dev_read_ascii_values d in
  set_device (Some d') ;;
  emit (ReadValues l) ;;
  ret l.

(** [self.device.close()]. *)
Definition visa_close (d : D) : M unit :=
  set_device (Some (dev_close d)) ;;
  emit Closed.

(** A body without [return] on the taken path yields [None]: [tt] for
    [_write], [None] for the two readers. *)
Definition _write (message : string) : M unit :=
  dev <- get_device ;;
  match dev with
  | Some d => visa_write d message
  | None => ret tt
  end.

Definition _read : M (option string) :=
  dev <- get_device ;;
  match dev with
  | Some d => s <- visa_read d ;; ret (Some (strip_nl s))
  | None => ret None
  end.

Definition _read_number : M (option float) :=
  dev <- get_device ;;
  match dev with
  | Some d => l <- visa_read_ascii_values d ;; x <- lift (item0 l) ;; ret (Some x)
  | None => ret None
  end.

Definition open_communication (address : string) : M (option string) :=
  d <- lift (open_resource address) ;;
  set_device (Some d) ;;
  _write "*IDN?" ;;
  idn <- _read ;;
  set__idn idn ;;
  ret idn.

Definition wavelength_get : M float :=
  _write ":SOURce0:WAVelength?" ;;
  x <- _read_number ;;
  w <- lift (mul_1e9 x) ;;
  set__wavelength (Some w) ;;
  ret w.

Definition wavelength_set (wavelength : PyVal) : M unit :=
  _write (":SOURce0:WAVelength " ++ py_str repr_float wavelength ++ "NM") ;;
  _ <- wavelength_get ;;
  ret tt.

Definition get_wavelength_limits : M (option float * option float) :=
  _write ":SOURce0:WAVelength? MIN" ;;
  min_val <- _read_number ;;
  _write ":SOURce0:WAVelength? MAX" ;;
  max_val <- _read_number ;;
  ret (min_val, max_val).

Definition output_trigger_get : M TriggerOutput :=
  _write ":TRIG0:OUTP?" ;;
  r <- _read ;;
  trig <- lift (py_upper r) ;;
  lift (TriggerOutputEnum.getitem trig).

Definition output_trigger_set (trigger : TriggerOutput) : M unit :=
  _write (":TRIG0:OUTP " ++ TriggerOutputEnum.name trigger).

Definition sweep_cycles_get : M Z :=
  _write ":SOURce0:WAVelength:SWEep:CYCLes?" ;;
  x <- _read_number ;;
  lift (py_int x).

Definition sweep_cycles_set (ncycles : PyVal) : M unit :=
  _write (":SOURce0:WAVelength:SWEep:CYCLes " ++ py_str repr_float ncycles).

Definition sweep_mode_get : M SweepMode :=
  _write ":SOURce0:WAVelength:SWEep:MODE?" ;;
  r <- _read ;;
  mode <- lift (py_upper r) ;;
  lift (SweepModeEnum.getitem mode).

Definition sweep_mode_set (mode : SweepMode) : M unit :=
  _write (":SOURce0:WAVelength:SWEep:MODE " ++ SweepModeEnum.name mode).

Definition sweep_speed_get : M float :=
  _write ":SOURce0:WAVelength:SWEep:SPEed?" ;;
  x <- _read_number ;;
  lift (mul_1e9 x).

Definition sweep_speed_set (speed : PyVal) : M unit :=
  _write (":SOURce0:WAVelength:SWEep:SPEed " ++ py_str repr_float speed ++ "NM/S").

Definition configure_sweep (start stop step : PyVal) : M (float * float * float) :=
  _write (":SOURce0:WAVelength:SWEep:STEP " ++ py_str repr_float step ++ "NM") ;;
  _write (":SOURce0:WAVelength:SWEep:STARt " ++ py_str repr_float start ++ "NM") ;;
  _write (":SOURce0:WAVelength:SWEep:STOP " ++ py_str repr_float stop ++ "NM") ;;
  _write ":SOURce0:WAVelength:SWEep:STARt?" ;;
  x <- _read_number ;;
  start' <- lift (mul_1e9 x) ;;
  _write ":SOURce0:WAVelength:SWEep:STEP?" ;;
  x <- _read_number ;;
  step' <- lift (mul_1e9 x) ;;
  _write ":SOURce0:WAVelength:SWEep:STOP?" ;;
  x <- _read_number ;;
  stop' <- lift (mul_1e9 x) ;;
  ret (start', stop', step').

Definition start_sweep : M unit :=
  _write ":SOURce0:WAVelength:SWEep STARt".

Definition laser_status_get : M bool :=
  _write ":SOURce0:POWer:STATe?" ;;
  x <- _read_number ;;
  z <- lift (py_int x) ;;
  ret (py_bool z).

Definition laser_status_set (status : PyVal) : M unit :=
  let status : Z := if is_True status then 1%Z else 0%Z in
  _write (":SOURce0:POWer:STATe " ++ str_of_Z status).

Definition locked_get : M bool :=
  _write ":LOCK?" ;;
  x <- _read_number ;;
  z <- lift (py_int x) ;;
  ret (py_bool z).

Definition locked_set (lock : PyVal) : M unit :=
  let status : Z := if is_True lock then 1%Z else 0%Z in
  _write (":LOCK " ++ str_of_Z status ++ ",1234").

Definition close_communication : M unit :=
  dev <- get_device ;;
  match dev with
  | Some d => visa_close d
  | None => lift (Raise AttributeError)
  end.

End Adapter.

Arguments TunableLaser D : clear implicits.
Arguments M D A : clear implicits.

(** ** A simulated instrument

    A stateful stand-in for the laser, of the kind a test of the adapter
    plugs in: it decodes the SCPI text it is sent, keeps the values in SI
    units as the instrument does, and answers queries from them.  It reads
    the numeric literal of a set command with [parse_number]. *)

Module Sim.

Definition lower_char (c : ascii) : ascii :=
  let n := nat_of_ascii c in
  if (65 <=? n)%nat && (n <=? 90)%nat then ascii_of_nat (n + 32) else c.

(** The name [s] with its [i]-th letter in lower case where the [i]-th
    flag is set and in upper case where it is cleared; letters beyond the
    flags are left as they are. *)
Fixpoint recase (flags : list bool) (s : string) : string :=
  match s, flags with
  | String c r, b :: flags' =>
      String (if b then lower_char c else upper_char c) (recase flags' r)
  | _, _ => s
  end.

Fixpoint strip_prefix (p s : string) : option string :=
  match p, s with
  | EmptyString, _ => Some s
  | String a p', String b s' => if Ascii.eqb a b then strip_prefix p' s' else None
  | String _ _, EmptyString => None
  end.

(** [s] without its ending [suffix], when it ends with it. *)
Fixpoint strip_suffix (suffix s : string) : option string :=
  if String.eqb s suffix then Some EmptyString
  else
    match s with
    | EmptyString => None
    | String c r =>
        match strip_suffix suffix r with
        | Some r' => Some (String c r')
        | None => None
        end
    end.

(** An unsigned decimal literal, as a float. *)
Definition parse_uint (s : string) : option float :=
  match NilZero.uint_of_string s with
  | Some u => Some (of_uint63 (Uint63.of_Z (Z.of_uint u)))
  | None => None
  end.

(** A whole number, written with or without a fraction [.0]. *)
Definition parse_whole (s : string) : option float :=
  match strip_suffix ".0" s with
  | Some digits => parse_uint digits
  | None => parse_uint s
  end.

(** Python's [repr] on the whole-number floats below 1e16, the floats the
    examples format: the digits of the integer and [.0]. *)
Definition repr_whole (x : float) : string :=
  match int_of_float x with
  | Ok z => str_of_Z z ++ ".0"
  | Raise _ => "nan"
  end.

Inductive scpi : Type :=
| QWavelength
| QWavelengthMin
| QWavelengthMax
| SetWavelength (arg : string)
| QTrigger
| SetTrigger (name : string)
| QSweepStart
| QSweepStep
| QSweepStop
| SetSweepStart (arg : string)
| SetSweepStep (arg : string)
| SetSweepStop (arg : string)
| QLock
| SetLock (arg : string)
| Unknown.

Definition decode_set (message : string) : scpi :=
  match strip_prefix ":SOURce0:WAVelength:SWEep:STARt " message with
  | Some a => SetSweepStart a
  | None =>
  match strip_prefix ":SOURce0:WAVelength:SWEep:STEP " message with
  | Some a => SetSweepStep a
  | None =>
  match strip_prefix ":SOURce0:WAVelength:SWEep:STOP " message with
  | Some a => SetSweepStop a
  | None =>
  match strip_prefix ":SOURce0:WAVelength " message with
  | Some a => SetWavelength a
  | None =>
  match strip_prefix ":TRIG0:OUTP " message with
  | Some a => SetTrigger a
  | None =>
  match strip_prefix ":LOCK " message with
  | Some a => SetLock a
  | None => Unknown
  end end end end end end.

Definition decode (message : string) : scpi :=
  if String.eqb message ":SOURce0:WAVelength?" then QWavelength
  else if String.eqb message ":SOURce0:WAVelength? MIN" then QWavelengthMin
  else if String.eqb message ":SOURce0:WAVelength? MAX" then QWavelengthMax
  else if String.eqb message ":TRIG0:OUTP?" then QTrigger
  else if String.eqb message ":SOURce0:WAVelength:SWEep:STARt?" then QSweepStart
  else if String.eqb message ":SOURce0:WAVelength:SWEep:STEP?" then QSweepStep
  else if String.eqb message ":SOURce0:WAVelength:SWEep:STOP?" then QSweepStop
  else if String.eqb message ":LOCK?" then QLock
  else decode_set message.

(** What waits in the output buffer. *)
Inductive reply : Type :=
| Text (s : string)
| Numbers (l : list float).

Record FakeLaser : Type := mkFake {
  wl : float;               (* wavelength, m *)
  wl_min : float;           (* tuning range, m *)
  wl_max : float;
  sw_start : float;         (* sweep, m *)
  sw_stop : float;
  sw_step : float;
  trig : string;            (* trigger output, as last sent *)
  lock : bool;
  casing : list bool;       (* letter case of textual answers *)
  answer : option reply
}.

Definition with_answer (r : option reply) (f : FakeLaser) : FakeLaser :=
  {| wl := wl f; wl_min := wl_min f; wl_max := wl_max f;
     sw_start := sw_start f; sw_stop := sw_stop f; sw_step := sw_step f;
     trig := trig f; lock := lock f; casing := casing f; answer := r |}.

Definition with_wl (x : float) (f : FakeLaser) : FakeLaser :=
  {| wl := x; wl_min := wl_min f; wl_max := wl_max f;
     sw_start := sw_start f; sw_stop := sw_stop f; sw_step := sw_step f;
     trig := trig f; lock := lock f; casing := casing f; answer := answer f |}.

Definition with_sw_start (x : float) (f : FakeLaser) : FakeLaser :=
  {| wl := wl f; wl_min := wl_min f; wl_max := wl_max f;
     sw_start := x; sw_stop := sw_stop f; sw_step := sw_step f;
     trig := trig f; lock := lock f; casing := casing f; answer := answer f |}.

Definition with_sw_stop (x : float) (f : FakeLaser) : FakeLaser :=
  {| wl := wl f; wl_min := wl_min f; wl_max := wl_max f;
     sw_start := sw_start f; sw_stop := x; sw_step := sw_step f;
     trig := trig f; lock := lock f; casing := casing f; answer := answer f |}.

Definition with_sw_step (x : float) (f : FakeLaser) : FakeLaser :=
  {| wl := wl f; wl_min := wl_min f; wl_max := wl_max f;
     sw_start := sw_start f; sw_stop := sw_stop f; sw_step := x;
     trig := trig f; lock := lock f; casing := casing f; answer := answer f |}.

Definition with_trig (s : string) (f : FakeLaser) : FakeLaser :=
  {| wl := wl f; wl_min := wl_min f; wl_max := wl_max f;
     sw_start := sw_start f; sw_stop := sw_stop f; sw_step := sw_step f;
     trig := s; lock := lock f; casing := casing f; answer := answer f |}.

Definition with_lock (b : bool) (f : FakeLaser) : FakeLaser :=
  {| wl := wl f; wl_min := wl_min f; wl_max := wl_max f;
     sw_start := sw_start f; sw_stop := sw_stop f; sw_step := sw_step f;
     trig := trig f; lock := b; casing := casing f; answer := answer f |}.

Definition flag (b : bool) : float := if b then 1%float else 0%float.

Section Fake.

Variable parse_number : string -> option float.

(** A length in nanometres, [<number>NM], to metres. *)
Definition metres_of (arg : string) : option float :=
  match strip_suffix "NM" arg with
  | Some lit =>
      match parse_number lit with
      | Some x => Some (x / 1e9)%float
      | None => None
      end
  | None => None
  end.

(** A set command with an argument the instrument cannot read is dropped. *)
Definition set_length (upd : float -> FakeLaser -> FakeLaser) (arg : string)
    (f : FakeLaser) : FakeLaser :=
  match metres_of arg with
  | Some x => upd x f
  | None => f
  end.

Definition set_lock (arg : string) (f : FakeLaser) : FakeLaser :=
  match strip_suffix ",1234" arg with
  | Some "1" => with_lock true f
  | Some "0" => with_lock false f
  | _ => f
  end.

Definition execute (c : scpi) (f : FakeLaser) : FakeLaser :=
  match c with
  | QWavelength => with_answer (Some (Numbers [wl f])) f
  | QWavelengthMin => with_answer (Some (Numbers [wl_min f])) f
  | QWavelengthMax => with_answer (Some (Numbers [wl_max f])) f
  | SetWavelength a => set_length with_wl a f
  | QTrigger =>
      with_answer (Some (Text (recase (casing f) (trig f) ++ String newline ""))) f
  | SetTrigger n => with_trig n f
  | QSweepStart => with_answer (Some (Numbers [sw_start f])) f
  | QSweepStep => with_answer (Some (Numbers [sw_step f])) f
  | QSweepStop => with_answer (Some (Numbers [sw_stop f])) f
  | SetSweepStart a => set_length with_sw_start a f
  | SetSweepStep a => set_length with_sw_step a f
  | SetSweepStop a => set_length with_sw_stop a f
  | QLock => with_answer (Some (Numbers [flag (lock f)])) f
  | SetLock a => set_lock a f
  | Unknown => f
  end.

Definition fake_write (message : string) (f : FakeLaser) : FakeLaser :=
  execute (decode message) f.

Definition fake_read (f : FakeLaser) : string * FakeLaser :=
  match answer f with
  | Some (Text s) => (s, with_answer None f)
  | _ => ("", with_answer None f)
  end.

Definition fake_read_ascii_values (f : FakeLaser) : list float * FakeLaser :=
  match answer f with
  | Some (Numbers l) => (l, with_answer None f)
  | _ => ([], with_answer None f)
  end.

Definition fake_instrument : Instrument FakeLaser :=
  {| dev_write := fake_write;
     dev_read := fake_read;
     dev_read_ascii_values := fake_read_ascii_values;
     dev_close := with_answer None |}.

End Fake.

(** A laser as it might be found: 1550 nm, tuning range 1460 nm to
    1620 nm, unlocked, trigger output disabled. *)
Definition bench (flags : list bool) : FakeLaser :=
  {| wl := (1550 / 1e9)%float;
     wl_min := (1460 / 1e9)%float;
     wl_max := (1620 / 1e9)%float;
     sw_start := (1460 / 1e9)%float;
     sw_stop := (1620 / 1e9)%float;
     sw_step := (1 / 1e9)%float;
     trig := "DISABLED";
     lock := false;
     casing := flags;
     answer := None |}.

End Sim.

(** ** The public methods as calls

    Every method of the class other than [open_communication], with its
    arguments; [perform] runs one and drops what it returns. *)

Inductive call : Type :=
| GetWavelength
| SetWavelengthTo (wavelength : PyVal)
| GetWavelengthLimits
| GetOutputTrigger
| SetOutputTrigger (trigger : TriggerOutput)
| GetSweepCycles
| SetSweepCycles (ncycles : PyVal)
| GetSweepMode
| SetSweepMode (mode : SweepMode)
| GetSweepSpeed
| SetSweepSpeed (speed : PyVal)
| ConfigureSweep (start stop step : PyVal)
| StartSweep
| GetLaserStatus
| SetLaserStatus (status : PyVal)
| GetLocked
| SetLocked (lock : PyVal)
| CloseCommunication.

Section Calls.

Context {D : Type} {session : Instrument D}.
Variable repr_float : float -> string.

Definition discard {A : Type} (m : M D A) : M D unit :=
  bind m (fun _ => ret tt).

Definition perform (c : call) : M D unit :=
  match c with
  | GetWavelength => discard wavelength_get
  | SetWavelengthTo v => wavelength_set repr_float v
  | GetWavelengthLimits => discard get_wavelength_limits
  | GetOutputTrigger => discard output_trigger_get
  | SetOutputTrigger t => output_trigger_set t
  | GetSweepCycles => discard sweep_cycles_get
  | SetSweepCycles n => sweep_cycles_set repr_float n
  | GetSweepMode => discard sweep_mode_get
  | SetSweepMode m => sweep_mode_set m
  | GetSweepSpeed => discard sweep_speed_get
  | SetSweepSpeed v => sweep_speed_set repr_float v
  | ConfigureSweep start stop step => discard (configure_sweep repr_float start stop step)
  | StartSweep => start_sweep
  | GetLaserStatus => discard laser_status_get
  | SetLaserStatus v => laser_status_set v
  | GetLocked => discard locked_get
  | SetLocked v => locked_set v
  | CloseCommunication => close_communication
  end.

End Calls.

(** Unfolds a method down to the calls on the session. *)
Ltac run :=
  unfold perform, discard,
    wavelength_set, wavelength_get, get_wavelength_limits,
    output_trigger_get, output_trigger_set, sweep_cycles_get, sweep_cycles_set,
    sweep_mode_get, sweep_mode_set, sweep_speed_get, sweep_speed_set,
    configure_sweep, start_sweep, laser_status_get, laser_status_set,
    locked_get, locked_set, close_communication,
    _write, _read, _read_number,
    visa_write, visa_read, visa_read_ascii_values, visa_close,
    bind, get_device, set_device, set__wavelength, set__idn, emit, ret, lift;
  cbn [device _wavelength _idn].

(** ** Binary64 rounding

    What the proofs about [x / 1e9 * 1e9] need to name. *)

Section Rounding.

Local Open Scope Z_scope.

(** The state of a rounding after [n] right shifts of the significand [P]:
    the bits shifted out are the round bit and [low], and the sticky bit
    tells whether [low] is zero. *)
Definition shr_inv (P : Z) (n : nat) (rec : shr_record) : Prop :=
  exists low,
    0 <= low < 2 ^ (Z.of_nat n - 1)
    /\ P = shr_m rec * 2 ^ Z.of_nat n
           + (if shr_r rec then 2 ^ (Z.of_nat n - 1) else 0) + low
    /\ shr_s rec = negb (low =? 0)
    /\ 0 <= shr_m rec.

(** The significand of 1e9, which is [mant_1e9 * 2 ^ -23]. *)
Definition mant_1e9 : positive := 8388608000000000.

(** Wavelengths from 1025 nm to 1900 nm, in nanometres; the 1460 nm to
    1620 nm that the source sweeps lie inside. *)
Definition nm_in_range (x : float) : bool :=
  andb (1025 <=? x)%float (x <=? 1900)%float.

End Rounding.

(** ** The string form and whole programs *)

(** The calls that run the wavelength getter. *)
Definition touches_wavelength (c : call) : bool :=
  match c with
  | GetWavelength | SetWavelengthTo _ => true
  | _ => false
  end.

(** No read without a write just before it; [after_write] tells whether
    the event before the trace was a write. *)
Fixpoint reads_follow_writes (after_write : bool) (t : list io_event) : bool :=
  match t with
  | [] => true
  | Wrote _ :: rest => reads_follow_writes true rest
  | ReadLine _ :: rest | ReadValues _ :: rest =>
      after_write && reads_follow_writes false rest
  | Closed :: rest => reads_follow_writes false rest
  end.

(** [n] newlines. *)
Fixpoint newlines (n : nat) : string :=
  match n with
  | O => EmptyString
  | S n' => String newline (newlines n')
  end.

Definition starts_with_newline (s : string) : bool :=
  match s with
  | EmptyString => false
  | String c _ => Ascii.eqb c newline
  end.

Fixpoint ends_with_newline (s : string) : bool :=
  match s with
  | EmptyString => false
  | String c EmptyString => Ascii.eqb c newline
  | String _ r => ends_with_newline r
  end.

Section Programs.

Context {D : Type} {session : Instrument D}.
Variable repr_float : float -> string.

(** [str] of [_idn], which is [None] or a str, and of [_wavelength], which
    is [None] or a float. *)
Definition str_of_idn (o : option string) : string :=
  match o with
  | None => "None"
  | Some s => s
  end.

Definition str_of_wavelength (o : option float) : string :=
  match o with
  | None => "None"
  | Some x => repr_float x
  end.

(** [__repr__], where [self.__class__.__name__] is the name of this class. *)
Definition __repr__ (self : TunableLaser D) : string :=
  "TunableLaser" ++ ":" ++ str_of_idn (_idn self)
    ++ " at " ++ str_of_wavelength (_wavelength self) ++ "nm".

(** Calls made one after the other, as a script makes them: the first
    exception ends the run. *)
Fixpoint perform_all (cs : list call) : M D unit :=
  match cs with
  | [] => ret tt
  | c :: rest => bind (perform repr_float c) (fun _ => perform_all rest)
  end.

(** What one call, or a run of calls, keeps of the adapter [self] it starts
    from: the identity string, whether a session is held, and the pairing
    of reads with writes in what it puts on the wire. *)
Definition kept (self : TunableLaser D)
    (out : result unit * TunableLaser D * list io_event) : Prop :=
  _idn (snd (fst out)) = _idn self
  /\ (device (snd (fst out)) = None <-> device self = None)
  /\ reads_follow_writes false (snd out) = true.

End Programs.

(** ** A scripted session

    A session that ignores what it is sent and answers each read with the
    next reply of a script, or with nothing when the script is exhausted
    or the next reply is of the other kind. *)

Module Replay.

Definition next_text (script : list Sim.reply) : string * list Sim.reply :=
  match script with
  | Sim.Text s :: rest => (s, rest)
  | _ :: rest => ("", rest)
  | [] => ("", [])
  end.

Definition next_values (script : list Sim.reply) : list float * list Sim.reply :=
  match script with
  | Sim.Numbers l :: rest => (l, rest)
  | _ :: rest => ([], rest)
  | [] => ([], [])
  end.

Definition instrument : Instrument (list Sim.reply) :=
  {| dev_write := fun _ script => script;
     dev_read := next_text;
     dev_read_ascii_values := next_values;
     dev_close := fun script => script |}.

End Replay.

(** Splits on what the session answers and on what a lookup or a conversion
    of the answer gives. *)
Ltac answers :=
  repeat match goal with
    | |- context [dev_read_ascii_values ?d] =>
        destruct (dev_read_ascii_values d) as [[|? ?] ?]; cbn
    | |- context [dev_read ?d] => destruct (dev_read d) as [? ?]; cbn
    | |- context [int_of_float ?x] => destruct (int_of_float x); cbn
    | |- context [TriggerOutputEnum.getitem ?k] =>
        destruct (TriggerOutputEnum.getitem k); cbn
    | |- context [SweepModeEnum.getitem ?k] =>
        destruct (SweepModeEnum.getitem k); cbn
    end.

(** * Properties *)

(** ** Text *)

Lemma upper_char_idem (c : ascii) : upper_char (upper_char c) = upper_char c.
Proof. destruct c as [[] [] [] [] [] [] [] []]; reflexivity. Qed.

Lemma upper_lower_char (c : ascii) : upper_char (Sim.lower_char c) = upper_char c.
Proof. destruct c as [[] [] [] [] [] [] [] []]; reflexivity. Qed.

Lemma upper_char_newline (c : ascii) :
  Ascii.eqb (upper_char c) newline = Ascii.eqb c newline.
Proof. destruct c as [[] [] [] [] [] [] [] []]; reflexivity. Qed.

Lemma upper_app (s t : string) : upper (s ++ t) = upper s ++ upper t.
Proof.
  induction s as [|c s IH]; simpl.
  - reflexivity.
  - now rewrite IH.
Qed.

Lemma upper_recase (flags : list bool) (s : string) :
  upper (Sim.recase flags s) = upper s.
Proof.
  revert flags; induction s as [|c s IH]; intros [|b flags]; simpl; try reflexivity.
  rewrite IH. destruct b.
  - now rewrite upper_lower_char.
  - now rewrite upper_char_idem.
Qed.

Lemma upper_lstrip_nl (s : string) : upper (lstrip_nl s) = lstrip_nl (upper s).
Proof.
  induction s as [|c s IH]; simpl.
  - reflexivity.
  - rewrite upper_char_newline. destruct (Ascii.eqb c newline); [exact IH | reflexivity].
Qed.

Lemma upper_rstrip_nl (s : string) : upper (rstrip_nl s) = rstrip_nl (upper s).
Proof.
  induction s as [|c s IH]; simpl.
  - reflexivity.
  - rewrite <- IH, upper_char_newline.
    destruct (rstrip_nl s); simpl.
    + destruct (Ascii.eqb c newline); reflexivity.
    + reflexivity.
Qed.

Lemma upper_strip_nl (s : string) : upper (strip_nl s) = strip_nl (upper s).
Proof. unfold strip_nl. now rewrite upper_rstrip_nl, upper_lstrip_nl. Qed.

Lemma trigger_getitem_name (t : TriggerOutput) :
  TriggerOutputEnum.getitem (TriggerOutputEnum.name t) = Ok t.
Proof. destruct t; reflexivity. Qed.

Lemma trigger_getitem_Ok (key : string) (t : TriggerOutput) :
  TriggerOutputEnum.getitem key = Ok t -> TriggerOutputEnum.name t = key.
Proof.
  unfold TriggerOutputEnum.getitem.
  destruct (find _ _) as [t'|] eqn:E; [|discriminate].
  intros [= <-]. apply find_some in E. destruct E as [_ E].
  now apply String.eqb_eq in E.
Qed.

Lemma trigger_getitem_unknown (key : string) :
  (forall t, TriggerOutputEnum.name t <> key) ->
  TriggerOutputEnum.getitem key = Raise (KeyError key).
Proof.
  intros Hn. destruct (TriggerOutputEnum.getitem key) as [t|e] eqn:E.
  - apply trigger_getitem_Ok in E. now elim (Hn t).
  - unfold TriggerOutputEnum.getitem in *. destruct (find _ _); congruence.
Qed.

Lemma length_app (s t : string) :
  String.length (s ++ t) = String.length s + String.length t.
Proof. induction s as [|c s IH]; simpl; [reflexivity | now rewrite IH]. Qed.

Lemma strip_suffix_app (suffix s : string) :
  Sim.strip_suffix suffix (s ++ suffix) = Some s.
Proof.
  induction s as [|c s IH].
  - simpl. destruct suffix; simpl; now rewrite ?String.eqb_refl, ?Ascii.eqb_refl.
  - cbn [append Sim.strip_suffix]. rewrite IH.
    destruct (String.eqb_spec (String c (s ++ suffix)) suffix) as [E|E].
    + exfalso. apply (f_equal String.length) in E. simpl in E.
      rewrite length_app in E. lia.
    + reflexivity.
Qed.

(** ** The transport primitives *)

Section Primitives.

Context {D : Type} {session : Instrument D}.
Variable repr_float : float -> string.

Lemma _write_connected (message : string) (d : D) w i :
  _write message (mkLaser (Some d) w i) =
    (Ok tt, mkLaser (Some (dev_write message d)) w i, [Wrote message]).
Proof. reflexivity. Qed.

Lemma _write_disconnected (message : string) w i :
  _write (D := D) message (mkLaser None w i) = (Ok tt, mkLaser None w i, []).
Proof. reflexivity. Qed.

Lemma _read_number_connected (d d' : D) (x : float) (l : list float) w i :
  dev_read_ascii_values d = (x :: l, d') ->
  _read_number (mkLaser (Some d) w i) =
    (Ok (Some x), mkLaser (Some d') w i, [ReadValues (x :: l)]).
Proof. intros E. run. now rewrite E. Qed.

Lemma _read_connected (d d' : D) (s : string) w i :
  dev_read d = (s, d') ->
  _read (mkLaser (Some d) w i) =
    (Ok (Some (strip_nl s)), mkLaser (Some d') w i, [ReadLine s]).
Proof. intros E. run. now rewrite E. Qed.

(** A disconnected adapter is left as it was by every call, and nothing
    goes out. *)
Lemma perform_disconnected (c : call) w i :
  exists r, perform (D := D) repr_float c (mkLaser None w i) = (r, mkLaser None w i, []).
Proof. destruct c; eexists; reflexivity. Qed.

End Primitives.

(** ** Methods on any session *)

Section Methods.

Context {D : Type} {session : Instrument D}.
Variable repr_float : float -> string.

Lemma is_True_iff (v : PyVal) : is_True v = true <-> v = VBool true.
Proof.
  split.
  - destruct v as [|[]| | |]; simpl; congruence.
  - now intros ->.
Qed.

(** The wavelength getter on a session that answers [x]. *)
Lemma wavelength_get_connected (d d' : D) (x : float) (l : list float) w i :
  dev_read_ascii_values (dev_write ":SOURce0:WAVelength?" d) = (x :: l, d') ->
  wavelength_get (mkLaser (Some d) w i) =
    (Ok (x * 1e9)%float, mkLaser (Some d') (Some (x * 1e9)%float) i,
     [Wrote ":SOURce0:WAVelength?"; ReadValues (x :: l)]).
Proof.
  intros E. unfold wavelength_get, bind.
  rewrite _write_connected, (_read_number_connected _ _ _ _ _ _ E).
  reflexivity.
Qed.

(** The wavelength setter on a session that answers [x]. *)
Lemma wavelength_set_connected (v : PyVal) (d d' : D) (x : float)
    (l : list float) w i :
  dev_read_ascii_values
    (dev_write ":SOURce0:WAVelength?"
       (dev_write (":SOURce0:WAVelength " ++ py_str repr_float v ++ "NM") d))
    = (x :: l, d') ->
  wavelength_set repr_float v (mkLaser (Some d) w i) =
    (Ok tt, mkLaser (Some d') (Some (x * 1e9)%float) i,
     [Wrote (":SOURce0:WAVelength " ++ py_str repr_float v ++ "NM");
      Wrote ":SOURce0:WAVelength?"; ReadValues (x :: l)]).
Proof.
  intros E. unfold wavelength_set.
  unfold bind at 1. rewrite _write_connected.
  unfold bind. now rewrite (wavelength_get_connected _ _ _ _ _ _ E).
Qed.

(** What [get_wavelength_limits] does on a session that answers [lo] and
    then [hi]: two queries, two reads, the answers returned as read, and
    [_wavelength] untouched. *)
Lemma get_wavelength_limits_connected (d d1 d2 : D) (lo hi : float)
    (l1 l2 : list float) w i :
  dev_read_ascii_values (dev_write ":SOURce0:WAVelength? MIN" d) = (lo :: l1, d1) ->
  dev_read_ascii_values (dev_write ":SOURce0:WAVelength? MAX" d1) = (hi :: l2, d2) ->
  get_wavelength_limits (mkLaser (Some d) w i) =
    (Ok (Some lo, Some hi), mkLaser (Some d2) w i,
     [Wrote ":SOURce0:WAVelength? MIN"; ReadValues (lo :: l1);
      Wrote ":SOURce0:WAVelength? MAX"; ReadValues (hi :: l2)]).
Proof.
  intros E1 E2. unfold get_wavelength_limits, bind.
  rewrite _write_connected, (_read_number_connected _ _ _ _ _ _ E1).
  rewrite _write_connected, (_read_number_connected _ _ _ _ _ _ E2).
  reflexivity.
Qed.

(** The trigger getter on a session that answers [r]. *)
Lemma output_trigger_get_connected (d d' : D) (r : string) w i :
  dev_read (dev_write ":TRIG0:OUTP?" d) = (r, d') ->
  output_trigger_get (mkLaser (Some d) w i) =
    (TriggerOutputEnum.getitem (upper (strip_nl r)), mkLaser (Some d') w i,
     [Wrote ":TRIG0:OUTP?"; ReadLine r]).
Proof.
  intros E. unfold output_trigger_get, bind.
  rewrite _write_connected, (_read_connected _ _ _ _ _ E).
  unfold lift, py_upper. now destruct (TriggerOutputEnum.getitem _).
Qed.

(** [configure_sweep] on any session: three set commands, step then start
    then stop, three queries, start then step then stop, each answer times
    1e9, and the triple returned as (start, stop, step). *)
Lemma configure_sweep_connected (start stop step : PyVal)
    (d d1 d2 d3 : D) (x1 x2 x3 : float) (l1 l2 l3 : list float) w i :
  let set_step := ":SOURce0:WAVelength:SWEep:STEP " ++ py_str repr_float step ++ "NM" in
  let set_start := ":SOURce0:WAVelength:SWEep:STARt " ++ py_str repr_float start ++ "NM" in
  let set_stop := ":SOURce0:WAVelength:SWEep:STOP " ++ py_str repr_float stop ++ "NM" in
  dev_read_ascii_values
    (dev_write ":SOURce0:WAVelength:SWEep:STARt?"
       (dev_write set_stop (dev_write set_start (dev_write set_step d))))
    = (x1 :: l1, d1) ->
  dev_read_ascii_values (dev_write ":SOURce0:WAVelength:SWEep:STEP?" d1)
    = (x2 :: l2, d2) ->
  dev_read_ascii_values (dev_write ":SOURce0:WAVelength:SWEep:STOP?" d2)
    = (x3 :: l3, d3) ->
  configure_sweep repr_float start stop step (mkLaser (Some d) w i) =
    (Ok ((x1 * 1e9)%float, (x3 * 1e9)%float, (x2 * 1e9)%float),
     mkLaser (Some d3) w i,
     [Wrote set_step; Wrote set_start; Wrote set_stop;
      Wrote ":SOURce0:WAVelength:SWEep:STARt?"; ReadValues (x1 :: l1);
      Wrote ":SOURce0:WAVelength:SWEep:STEP?"; ReadValues (x2 :: l2);
      Wrote ":SOURce0:WAVelength:SWEep:STOP?"; ReadValues (x3 :: l3)]).
Proof.
  intros set_step set_start set_stop E1 E2 E3. run.
  fold set_step set_start set_stop. rewrite E1. cbn. rewrite E2. cbn. now rewrite E3.
Qed.

End Methods.

(** ** Binary64: metres and back *)

Section Binary64.

Local Open Scope Z_scope.

Lemma digits2_pos_size (p : positive) : digits2_pos p = Pos.size p.
Proof. induction p as [p IH|p IH|]; simpl; now rewrite ?IH. Qed.

Lemma digits2_pos_eq (p : positive) (k : Z) :
  0 < k -> 2 ^ (k - 1) <= Zpos p < 2 ^ k -> Zpos (digits2_pos p) = k.
Proof.
  intros Hk [Hlo Hhi]. rewrite digits2_pos_size.
  pose proof (Pos.size_gt p) as Hgt. pose proof (Pos.size_le p) as Hle.
  apply Pos2Z.pos_lt_pos in Hgt. apply Pos2Z.pos_le_pos in Hle.
  rewrite Pos2Z.inj_pow in Hgt, Hle. change (Z.pos p~0) with (2 * Z.pos p) in Hle.
  set (s := Zpos (Pos.size p)) in *.
  assert (Hs : 0 < s) by (subst s; lia).
  destruct (Z.lt_trichotomy s k) as [L|[E|G]]; [exfalso| exact E |exfalso].
  - assert (2 ^ s <= 2 ^ (k - 1)) by (apply Z.pow_le_mono_r; lia). lia.
  - assert (2 ^ (k + 1) <= 2 ^ s) by (apply Z.pow_le_mono_r; lia).
    rewrite Z.pow_add_r in H by lia. change (2 ^ 1) with 2 in H. lia.
Qed.

Lemma shr_1_nonneg (m : Z) (r s : bool) :
  0 <= m ->
  shr_1 (Build_shr_record m r s) = Build_shr_record (Z.div2 m) (Z.odd m) (r || s).
Proof. destruct m as [|[p|p|]|p]; simpl; intros; try reflexivity; lia. Qed.

Lemma shr_inv_first (P : Z) :
  0 <= P -> shr_inv P 1 (shr_1 (Build_shr_record P false false)).
Proof.
  intros HP. rewrite shr_1_nonneg by assumption. exists 0. cbn [shr_m shr_r shr_s].
  change (Z.of_nat 1 - 1) with 0. change (2 ^ Z.of_nat 1) with 2. change (2 ^ 0) with 1.
  pose proof (Z.div2_odd P) as E. pose proof (Z.div2_nonneg P).
  destruct (Z.odd P); cbn [Z.b2z] in E; repeat split; try lia.
Qed.

Lemma shr_inv_step (P : Z) (n : nat) (rec : shr_record) :
  (1 <= n)%nat -> shr_inv P n rec -> shr_inv P (S n) (shr_1 rec).
Proof.
  intros Hn (low & Hlow & HP & Hs & Hm). destruct rec as [m r s]. cbn [shr_m shr_r shr_s] in *.
  rewrite shr_1_nonneg by assumption. cbn [shr_m shr_r shr_s].
  exists ((if r then 2 ^ (Z.of_nat n - 1) else 0) + low).
  replace (Z.of_nat (S n) - 1) with (Z.of_nat n) by lia.
  replace (Z.of_nat (S n)) with (Z.of_nat n + 1) by lia.
  rewrite Z.pow_add_r by lia. change (2 ^ 1) with 2.
  assert (Hp : 2 ^ Z.of_nat n = 2 * 2 ^ (Z.of_nat n - 1)).
  { rewrite <- Z.pow_succ_r by lia. f_equal. lia. }
  assert (Hpos : 0 < 2 ^ (Z.of_nat n - 1)) by (apply Z.pow_pos_nonneg; lia).
  pose proof (Z.div2_odd m) as E. pose proof (Z.div2_nonneg m).
  repeat split.
  - destruct r; lia.
  - destruct r; lia.
  - rewrite HP, Hp. set (d := Z.div2 m) in *. set (b := Z.odd m) in *.
    rewrite E. destruct b, r; cbn [Z.b2z shr_m shr_r shr_s]; ring.
  - rewrite Hs. destruct r; cbn [orb].
    + symmetry. apply negb_true_iff. apply Z.eqb_neq. lia.
    + now rewrite Z.add_0_l.
  - cbn [shr_m]. apply Z.div2_nonneg. exact Hm.
Qed.

Lemma shr_inv_iter (P : Z) (n : nat) :
  0 <= P -> shr_inv P (S n) (Nat.iter (S n) shr_1 (Build_shr_record P false false)).
Proof.
  intros HP. induction n as [|n IH].
  - now apply shr_inv_first.
  - change (Nat.iter (S (S n)) shr_1 ?x) with (shr_1 (Nat.iter (S n) shr_1 x)).
    apply shr_inv_step; [lia | exact IH].
Qed.

Lemma iter_pos_nat {A : Type} (f : A -> A) (p : positive) (x : A) :
  iter_pos f p x = Nat.iter (Pos.to_nat p) f x.
Proof.
  revert x. induction p as [p IH|p IH|]; intros x; cbn [iter_pos].
  - rewrite !IH, Pos2Nat.inj_xI, <- Nat.iter_add, <- Nat.iter_succ_r.
    f_equal. lia.
  - rewrite !IH, Pos2Nat.inj_xO, <- Nat.iter_add. f_equal. lia.
  - reflexivity.
Qed.

Lemma loc_of_shr_record_of_loc (m : Z) (l : location) :
  loc_of_shr_record (shr_record_of_loc m l) = l.
Proof. destruct l as [|[]]; reflexivity. Qed.

Lemma shr_m_of_loc (m : Z) (l : location) : shr_m (shr_record_of_loc m l) = m.
Proof. destruct l as [|[]]; reflexivity. Qed.

(** A 53-bit mantissa at an exponent in range is not shifted. *)
Lemma shr_fexp_53 (m e : Z) (l : location) :
  2 ^ 52 <= m < 2 ^ 53 -> -1074 <= e ->
  shr_fexp prec emax m e l = (shr_record_of_loc m l, e).
Proof.
  intros Hm He. unfold shr_fexp.
  destruct m as [|p|p]; try (exfalso; lia).
  cbn [Zdigits2]. rewrite (digits2_pos_eq p 53) by (lia || exact Hm).
  unfold fexp, emin, prec, emax.
  replace (Z.max (53 + e - 53) (3 - 1024 - 53) - e) with 0 by lia.
  reflexivity.
Qed.

Lemma binary_round_aux_53 (sx : bool) (mx ex : Z) (lx : location) :
  2 ^ 52 <= mx < 2 ^ 53 ->
  2 ^ 52 <= round_nearest_even mx lx < 2 ^ 53 ->
  -1074 <= ex <= 971 ->
  binary_round_aux prec emax sx mx ex lx =
    S754_finite sx (Z.to_pos (round_nearest_even mx lx)) ex.
Proof.
  intros Hm Hr He. unfold binary_round_aux.
  rewrite shr_fexp_53 by (assumption || lia).
  rewrite shr_m_of_loc, loc_of_shr_record_of_loc.
  rewrite shr_fexp_53 by (assumption || lia).
  cbn [shr_record_of_loc shr_m].
  destruct (round_nearest_even mx lx) as [|p|p]; try (exfalso; lia).
  replace (ex <=? emax - prec) with true; [reflexivity|].
  symmetry. apply Z.leb_le. unfold emax, prec. lia.
Qed.

Lemma shr_fexp_shift (P e : Z) (n : positive) :
  2 ^ (52 + Zpos n) <= P < 2 ^ (53 + Zpos n) -> -1074 <= e + Zpos n ->
  shr_fexp prec emax P e loc_Exact =
    (iter_pos shr_1 n (Build_shr_record P false false), e + Zpos n).
Proof.
  intros HP He. unfold shr_fexp.
  assert (0 < 2 ^ (52 + Zpos n)) by (apply Z.pow_pos_nonneg; lia).
  destruct P as [|p|p]; try (exfalso; lia).
  cbn [Zdigits2]. rewrite (digits2_pos_eq p (53 + Zpos n)).
  - unfold fexp, emin, prec, emax.
    replace (Z.max (53 + Zpos n + e - 53) (3 - 1024 - 53) - e) with (Zpos n) by lia.
    reflexivity.
  - lia.
  - now replace (53 + Zpos n - 1) with (52 + Zpos n) by lia.
Qed.

Lemma Prim2SF_1e9 : Prim2SF 1e9 = S754_finite false mant_1e9 (-23).
Proof. reflexivity. Qed.

(** Rounding to nearest after 53 shifts is within half a unit. *)
Lemma round_after_shr (P : Z) (rec : shr_record) :
  shr_inv P 53 rec ->
  let r := round_nearest_even (shr_m rec) (loc_of_shr_record rec) in
  - 2 ^ 53 <= 2 * (r * 2 ^ 53 - P) <= 2 ^ 53.
Proof.
  intros (low & Hlow & HP & Hs & Hm). destruct rec as [h rb st].
  cbn [shr_m shr_r shr_s] in *.
  change (Z.of_nat 53 - 1) with 52 in *. change (Z.of_nat 53) with 53 in *.
  assert (Hz : (low =? 0) = true -> low = 0) by apply Z.eqb_eq.
  destruct rb, st; cbn [loc_of_shr_record round_nearest_even];
    destruct (low =? 0); try discriminate;
    try destruct (Z.even h); try specialize (Hz eq_refl); lia.
Qed.

(** Rounding a quotient by [mant_1e9] from its remainder. *)
Lemma round_after_div (N q r : Z) :
  N = Zpos mant_1e9 * q + r -> 0 <= r < Zpos mant_1e9 ->
  let m := round_nearest_even q (new_location (Zpos mant_1e9) r) in
  - Zpos mant_1e9 <= 2 * (m * Zpos mant_1e9 - N) <= Zpos mant_1e9
  /\ q <= m <= q + 1.
Proof.
  intros HN Hr. unfold new_location. change (Z.even (Zpos mant_1e9)) with true.
  cbv iota. unfold new_location_even.
  destruct (Z.eqb_spec r 0) as [E|E]; cbn [round_nearest_even].
  - lia.
  - destruct (Z.compare_spec (2 * r) (Zpos mant_1e9)); cbn [round_nearest_even];
      try destruct (Z.even q); lia.
Qed.

Section RoundTrip.

(** A significand of a float in [2^10, 2^11) that is above 1024 and at
    most 1900: the float is [m * 2 ^ -42]. *)
Variable m : positive.
Hypothesis m_range : 2 ^ 52 < Zpos m <= 1900 * 2 ^ 42.

Lemma div_1e9_finite :
  exists m1 : positive,
    SF64div (S754_finite false m (-42)) (S754_finite false mant_1e9 (-23))
      = S754_finite false m1 (-72)
    /\ - Zpos mant_1e9 <= 2 * (Zpos m1 * Zpos mant_1e9 - Zpos m * 2 ^ 53) <= Zpos mant_1e9
    /\ 2 ^ 52 <= Zpos m1 < 2 ^ 53.
Proof.
  unfold SF64div, SFdiv, SFdiv_core_binary. cbn [Zdigits2 xorb].
  rewrite (digits2_pos_eq m 53) by lia.
  change (Zpos (digits2_pos mant_1e9)) with 53.
  change (Z.min (fexp prec emax (53 + -42 - (53 + -23))) (-42 - -23)) with (-72).
  change (-42 - -23 - -72) with 53. cbv iota beta zeta.
  rewrite Z.shiftl_mul_pow2 by lia.
  pose proof (Z_div_mod (Zpos m * 2 ^ 53) (Zpos mant_1e9) eq_refl) as Hd.
  destruct (Z.div_eucl (Zpos m * 2 ^ 53) (Zpos mant_1e9)) as [q r].
  destruct Hd as [Hq Hr].
  destruct (round_after_div _ _ _ Hq Hr) as [Hb Hm1].
  set (m1 := round_nearest_even q (new_location (Zpos mant_1e9) r)) in *.
  assert (Hq52 : 2 ^ 52 <= q < 2 ^ 53 - 1) by (unfold mant_1e9 in *; lia).
  exists (Z.to_pos m1).
  rewrite binary_round_aux_53; fold m1; try lia.
  rewrite Z2Pos.id by lia. repeat split; try lia; assumption.
Qed.

Lemma mul_1e9_back (m1 : positive) :
  - Zpos mant_1e9 <= 2 * (Zpos m1 * Zpos mant_1e9 - Zpos m * 2 ^ 53) <= Zpos mant_1e9 ->
  SF64mul (S754_finite false m1 (-72)) (S754_finite false mant_1e9 (-23))
    = S754_finite false m (-42).
Proof.
  intros Hb. unfold SF64mul, SFmul. cbn [xorb]. change (-72 + -23) with (-95).
  rewrite Pos2Z.inj_mul. set (P := Zpos m1 * Zpos mant_1e9) in *.
  assert (HP : 2 ^ 105 <= P < 2 ^ 106) by (unfold mant_1e9 in *; lia).
  unfold binary_round_aux.
  rewrite (shr_fexp_shift P (-95) 53) by (cbn; lia).
  rewrite iter_pos_nat. change (Pos.to_nat 53) with 53%nat.
  pose proof (round_after_shr P _ (shr_inv_iter P 52 ltac:(lia))) as Hr.
  cbv zeta in Hr.
  set (r := round_nearest_even _ _) in *.
  assert (E : r = Zpos m) by (unfold mant_1e9 in *; lia).
  rewrite E. change (-95 + 53) with (-42).
  rewrite shr_fexp_53 by lia. reflexivity.
Qed.

Lemma SF_nm_roundtrip :
  SF64mul (SF64div (S754_finite false m (-42)) (Prim2SF 1e9)) (Prim2SF 1e9)
    = S754_finite false m (-42).
Proof.
  rewrite Prim2SF_1e9.
  destruct div_1e9_finite as (m1 & -> & Hb & _).
  now apply mul_1e9_back.
Qed.

End RoundTrip.

Lemma Prim2SF_inj (a b : float) : Prim2SF a = Prim2SF b -> a = b.
Proof.
  intros E. transitivity (SF2Prim (Prim2SF a)).
  - symmetry. apply SF2Prim_Prim2SF.
  - rewrite E. apply SF2Prim_Prim2SF.
Qed.

(** A float between two floats of [2^10, 2^11) is one of them too. *)
Lemma SF_between (lo hi : positive) (x : float) :
  SFleb (S754_finite false lo (-42)) (Prim2SF x) = true ->
  SFleb (Prim2SF x) (S754_finite false hi (-42)) = true ->
  exists m, Prim2SF x = S754_finite false m (-42) /\ Zpos lo <= Zpos m <= Zpos hi.
Proof.
  unfold SFleb, SFcompare. destruct (Prim2SF x) as [s|s| |s m e].
  - discriminate.
  - destruct s; discriminate.
  - discriminate.
  - destruct s; [discriminate|].
    change (Pos.compare_cont Eq lo m) with (lo ?= m)%positive.
    change (Pos.compare_cont Eq m hi) with (m ?= hi)%positive.
    destruct (Z.compare_spec (-42) e) as [<-|L|L].
    + change (-42 ?= -42) with Eq.
      destruct (Pos.compare_spec lo m), (Pos.compare_spec m hi);
        try discriminate; intros _ _; exists m; (split; [reflexivity | lia]).
    + destruct (Z.compare_spec e (-42)); try discriminate; lia.
    + discriminate.
Qed.

(** Metres and back: dividing a wavelength in range by 1e9 and multiplying
    the quotient by 1e9 gives the wavelength again, bit for bit. *)
Lemma nm_roundtrip (x : float) :
  nm_in_range x = true -> (x / 1e9 * 1e9)%float = x.
Proof.
  unfold nm_in_range. intros H. apply andb_prop in H. destruct H as [Hlo Hhi].
  rewrite FloatAxioms.leb_spec in Hlo, Hhi.
  destruct (SF_between 4507997673881600 8356288371097600 x Hlo Hhi)
    as (m & Ex & Hm).
  apply Prim2SF_inj.
  rewrite FloatAxioms.mul_spec, FloatAxioms.div_spec, Ex.
  apply SF_nm_roundtrip. lia.
Qed.

End Binary64.

(** ** Against the simulated instrument *)

Section OnSimulator.

Variable repr_float : float -> string.
Variable parse_number : string -> option float.


Lemma decode_set_wavelength (arg : string) :
  Sim.decode (":SOURce0:WAVelength " ++ arg) = Sim.SetWavelength arg.
Proof. reflexivity. Qed.

Lemma metres_of_literal (lit : string) (x : float) :
  parse_number lit = Some x ->
  Sim.metres_of parse_number (lit ++ "NM") = Some (x / 1e9)%float.
Proof.
  intros E. unfold Sim.metres_of. now rewrite strip_suffix_app, E.
Qed.

(** The simulator takes a wavelength it can read and answers the next
    wavelength query with it, in metres. *)
Lemma sim_wavelength_echo (lit : string) (x : float) (f : Sim.FakeLaser) :
  parse_number lit = Some x ->
  Sim.fake_read_ascii_values
    (Sim.fake_write parse_number ":SOURce0:WAVelength?"
       (Sim.fake_write parse_number (":SOURce0:WAVelength " ++ lit ++ "NM") f))
  = ([(x / 1e9)%float], Sim.with_answer None (Sim.with_wl (x / 1e9)%float f)).
Proof.
  intros E. unfold Sim.fake_write at 2. rewrite decode_set_wavelength.
  cbn [Sim.execute]. unfold Sim.set_length. rewrite (metres_of_literal _ _ E).
  reflexivity.
Qed.

Lemma sim_wavelength_again (y : float) (f : Sim.FakeLaser) :
  Sim.fake_read_ascii_values
    (Sim.fake_write parse_number ":SOURce0:WAVelength?"
       (Sim.with_answer None (Sim.with_wl y f)))
  = ([y], Sim.with_answer None (Sim.with_wl y f)).
Proof. reflexivity. Qed.

(** Setting a wavelength in range and getting it returns it exactly. *)
Lemma wavelength_set_get_sim (v : PyVal) (x : float) (f : Sim.FakeLaser) w i :
  parse_number (py_str repr_float v) = Some x ->
  nm_in_range x = true ->
  bind (wavelength_set (session := Sim.fake_instrument parse_number) repr_float v)
    (fun _ => wavelength_get (session := Sim.fake_instrument parse_number)) (mkLaser (Some f) w i) =
    (Ok x,
     mkLaser (Some (Sim.with_answer None (Sim.with_wl (x / 1e9)%float f))) (Some x) i,
     [Wrote (":SOURce0:WAVelength " ++ py_str repr_float v ++ "NM");
      Wrote ":SOURce0:WAVelength?"; ReadValues [(x / 1e9)%float];
      Wrote ":SOURce0:WAVelength?"; ReadValues [(x / 1e9)%float]]).
Proof.
  intros E R. unfold bind at 1.
  rewrite (wavelength_set_connected (session := Sim.fake_instrument parse_number)
             repr_float v f _ _ _ w i (sim_wavelength_echo _ _ f E)).
  rewrite (wavelength_get_connected (session := Sim.fake_instrument parse_number) _ _ _ _ _ _
             (sim_wavelength_again _ f)).
  rewrite (nm_roundtrip x R). reflexivity.
Qed.

(** The trigger name comes back in the letter case of the simulator and
    is found again whatever that case is. *)
Lemma trigger_key_recased (flags : list bool) (t : TriggerOutput) :
  upper (strip_nl (Sim.recase flags (TriggerOutputEnum.name t) ++ String newline ""))
  = TriggerOutputEnum.name t.
Proof.
  rewrite upper_strip_nl, upper_app, upper_recase. now destruct t.
Qed.

Lemma output_trigger_set_get_sim (t : TriggerOutput) (f : Sim.FakeLaser) w i :
  bind (output_trigger_set (session := Sim.fake_instrument parse_number) t)
    (fun _ => output_trigger_get (session := Sim.fake_instrument parse_number))
    (mkLaser (Some f) w i) =
    (Ok t,
     mkLaser (Some (Sim.with_answer None (Sim.with_trig (TriggerOutputEnum.name t) f))) w i,
     [Wrote (":TRIG0:OUTP " ++ TriggerOutputEnum.name t); Wrote ":TRIG0:OUTP?";
      ReadLine (Sim.recase (Sim.casing f) (TriggerOutputEnum.name t) ++ String newline "")]).
Proof.
  unfold bind, output_trigger_set. rewrite _write_connected.
  rewrite (output_trigger_get_connected (session := Sim.fake_instrument parse_number) _
             (Sim.with_answer None (Sim.with_trig (TriggerOutputEnum.name t) f))
             (Sim.recase (Sim.casing f) (TriggerOutputEnum.name t) ++ String newline ""))
    by now destruct t.
  now rewrite trigger_key_recased, trigger_getitem_name.
Qed.

Lemma locked_set_get_sim (b : bool) (f : Sim.FakeLaser) w i :
  bind (locked_set (session := Sim.fake_instrument parse_number) (VBool b))
    (fun _ => locked_get (session := Sim.fake_instrument parse_number)) (mkLaser (Some f) w i) =
    (Ok b, mkLaser (Some (Sim.with_answer None (Sim.with_lock b f))) w i,
     [Wrote (if b then ":LOCK 1,1234" else ":LOCK 0,1234"); Wrote ":LOCK?";
      ReadValues [Sim.flag b]]).
Proof. destruct b; reflexivity. Qed.

End OnSimulator.

(** * The claims *)

Section Claims.

Context {D : Type} {session : Instrument D}.
Variable repr_float : float -> string.

(** C1 (what the code does on the bench laser, tuning range 1460 nm to
    1620 nm): [get_wavelength_limits] sends the MIN query, reads, sends the
    MAX query, reads, leaves [_wavelength] as it was, and returns the two
    answers as they were read, in metres.  The pair is (1.46e-06,
    1.62e-06) and not (1460.0, 1620.0); multiplying by 1e9, as the
    wavelength getter does, would give the latter. *)
Theorem get_wavelength_limits_in_metres (parse_number : string -> option float)
    (flags : list bool) w i :
  let lo := (1460 / 1e9)%float in
  let hi := (1620 / 1e9)%float in
  get_wavelength_limits (session := Sim.fake_instrument parse_number)
      (mkLaser (Some (Sim.bench flags)) w i) =
    (Ok (Some lo, Some hi), mkLaser (Some (Sim.bench flags)) w i,
     [Wrote ":SOURce0:WAVelength? MIN"; ReadValues [lo];
      Wrote ":SOURce0:WAVelength? MAX"; ReadValues [hi]])
  /\ lo <> 1460%float /\ hi <> 1620%float
  /\ mul_1e9 (Some lo) = Ok 1460%float /\ mul_1e9 (Some hi) = Ok 1620%float.
Proof.
  cbv zeta. split.
  - eapply (get_wavelength_limits_connected
              (session := Sim.fake_instrument parse_number)); reflexivity.
  - repeat split;
      try (intros E; apply (f_equal Prim2SF) in E; vm_compute in E; discriminate E).
Qed.

(** C2 (what the code does): before a session is opened the two readers
    return [None] without raising, but none of the seven property getters
    returns [None] and none raises [NotConnectedError]: the [None] of the
    reader is used as a number or as a string, and the getter raises
    [TypeError] or [AttributeError].  Nothing is sent and the adapter is
    unchanged. *)
Theorem getters_before_open_raise w i :
  let self : TunableLaser D := mkLaser None w i in
  _read_number self = (Ok None, self, [])
  /\ _read self = (Ok None, self, [])
  /\ wavelength_get self = (Raise TypeError, self, [])
  /\ output_trigger_get self = (Raise AttributeError, self, [])
  /\ sweep_cycles_get self = (Raise TypeError, self, [])
  /\ sweep_mode_get self = (Raise AttributeError, self, [])
  /\ sweep_speed_get self = (Raise TypeError, self, [])
  /\ laser_status_get self = (Raise TypeError, self, [])
  /\ locked_get self = (Raise TypeError, self, []).
Proof. cbv zeta. repeat split. Qed.

(** C3: on an open session [configure_sweep] sends exactly three set
    commands, step then start then stop, each value followed by [NM], then
    three queries, each followed by one read, and returns (start, stop,
    step) as answered, each times 1e9.  Against the simulated instrument,
    which keeps what it is sent, [configure_sweep(1460, 1620, 10)] returns
    (1460.0, 1620.0, 10.0). *)
Theorem configure_sweep_step_start_stop :
  (forall (start stop step : PyVal) (d d1 d2 d3 : D) (x1 x2 x3 : float)
      (l1 l2 l3 : list float) w i,
      let set_step := ":SOURce0:WAVelength:SWEep:STEP " ++ py_str repr_float step ++ "NM" in
      let set_start := ":SOURce0:WAVelength:SWEep:STARt " ++ py_str repr_float start ++ "NM" in
      let set_stop := ":SOURce0:WAVelength:SWEep:STOP " ++ py_str repr_float stop ++ "NM" in
      dev_read_ascii_values
        (dev_write ":SOURce0:WAVelength:SWEep:STARt?"
           (dev_write set_stop (dev_write set_start (dev_write set_step d))))
        = (x1 :: l1, d1) ->
      dev_read_ascii_values (dev_write ":SOURce0:WAVelength:SWEep:STEP?" d1)
        = (x2 :: l2, d2) ->
      dev_read_ascii_values (dev_write ":SOURce0:WAVelength:SWEep:STOP?" d2)
        = (x3 :: l3, d3) ->
      configure_sweep repr_float start stop step (mkLaser (Some d) w i) =
        (Ok ((x1 * 1e9)%float, (x3 * 1e9)%float, (x2 * 1e9)%float),
         mkLaser (Some d3) w i,
         [Wrote set_step; Wrote set_start; Wrote set_stop;
          Wrote ":SOURce0:WAVelength:SWEep:STARt?"; ReadValues (x1 :: l1);
          Wrote ":SOURce0:WAVelength:SWEep:STEP?"; ReadValues (x2 :: l2);
          Wrote ":SOURce0:WAVelength:SWEep:STOP?"; ReadValues (x3 :: l3)]))
  /\ (forall (f : Sim.FakeLaser) w i,
        let out :=
          configure_sweep (session := Sim.fake_instrument Sim.parse_whole) repr_float
            (VInt 1460) (VInt 1620) (VInt 10) (mkLaser (Some f) w i) in
        fst (fst out) = Ok (1460%float, 1620%float, 10%float)
        /\ snd out =
           [Wrote ":SOURce0:WAVelength:SWEep:STEP 10NM";
            Wrote ":SOURce0:WAVelength:SWEep:STARt 1460NM";
            Wrote ":SOURce0:WAVelength:SWEep:STOP 1620NM";
            Wrote ":SOURce0:WAVelength:SWEep:STARt?"; ReadValues [(1460 / 1e9)%float];
            Wrote ":SOURce0:WAVelength:SWEep:STEP?"; ReadValues [(10 / 1e9)%float];
            Wrote ":SOURce0:WAVelength:SWEep:STOP?"; ReadValues [(1620 / 1e9)%float]]).
Proof.
  split.
  - intros start stop step d d1 d2 d3 x1 x2 x3 l1 l2 l3 w i
      set_step set_start set_stop E1 E2 E3.
    exact (configure_sweep_connected repr_float start stop step d d1 d2 d3
             x1 x2 x3 l1 l2 l3 w i E1 E2 E3).
  - intros f w i out. subst out. split; vm_compute; reflexivity.
Qed.

(** C4: on an open session the wavelength setter sends one command, the
    value followed by [NM], then runs the getter at once (one query, one
    read), which stores the answer times 1e9 in [_wavelength]; the setter
    itself returns nothing. *)
Theorem wavelength_set_write_then_get (v : PyVal) (d d' : D) (x : float)
    (l : list float) w i :
  let command := ":SOURce0:WAVelength " ++ py_str repr_float v ++ "NM" in
  dev_read_ascii_values (dev_write ":SOURce0:WAVelength?" (dev_write command d))
    = (x :: l, d') ->
  wavelength_set repr_float v (mkLaser (Some d) w i) =
    (Ok tt, mkLaser (Some d') (Some (x * 1e9)%float) i,
     [Wrote command; Wrote ":SOURce0:WAVelength?"; ReadValues (x :: l)]).
Proof. intros command E. now apply wavelength_set_connected. Qed.

(** C5 (amended): on an open session the trigger getter sends the query,
    puts the answer, stripped of newlines, in upper case and looks it up
    among the four member names.  An answer that is no member name makes it
    raise the lookup's own [KeyError], carrying the text; it never raises
    [ProtocolError]. *)
Theorem output_trigger_get_lookup (d d' : D) (r : string) w i :
  dev_read (dev_write ":TRIG0:OUTP?" d) = (r, d') ->
  let key := upper (strip_nl r) in
  let out := output_trigger_get (mkLaser (Some d) w i) in
  snd out = [Wrote ":TRIG0:OUTP?"; ReadLine r]
  /\ snd (fst out) = mkLaser (Some d') w i
  /\ (forall t, TriggerOutputEnum.name t = key -> fst (fst out) = Ok t)
  /\ ((forall t, TriggerOutputEnum.name t <> key) ->
      fst (fst out) = Raise (KeyError key))
  /\ fst (fst out) <> Raise ProtocolError.
Proof.
  intros E key out. subst out.
  rewrite (output_trigger_get_connected _ _ _ _ _ E). cbn [fst snd]. fold key.
  repeat split.
  - intros t <-. apply trigger_getitem_name.
  - apply trigger_getitem_unknown.
  - unfold TriggerOutputEnum.getitem. destruct (find _ _); discriminate.
Qed.

(** C6: [locked = True] sends exactly [:LOCK 1,1234] and [locked = False]
    exactly [:LOCK 0,1234]; whatever the value, the command ends with the
    literal [,1234], which no caller supplies.  Against the simulated
    instrument a [locked] read after the write returns the value written. *)
Theorem locked_set_passcode :
  (forall (d : D) w i,
      locked_set (VBool true) (mkLaser (Some d) w i) =
        (Ok tt, mkLaser (Some (dev_write ":LOCK 1,1234" d)) w i, [Wrote ":LOCK 1,1234"])
      /\ locked_set (VBool false) (mkLaser (Some d) w i) =
        (Ok tt, mkLaser (Some (dev_write ":LOCK 0,1234" d)) w i, [Wrote ":LOCK 0,1234"]))
  /\ (forall (v : PyVal) (d : D) w i,
        exists flag,
          snd (locked_set v (mkLaser (Some d) w i)) = [Wrote (":LOCK " ++ flag ++ ",1234")])
  /\ (forall (parse_number : string -> option float) (b : bool) (f : Sim.FakeLaser) w i,
        bind (locked_set (session := Sim.fake_instrument parse_number) (VBool b))
          (fun _ => locked_get (session := Sim.fake_instrument parse_number))
          (mkLaser (Some f) w i) =
          (Ok b, mkLaser (Some (Sim.with_answer None (Sim.with_lock b f))) w i,
           [Wrote (if b then ":LOCK 1,1234" else ":LOCK 0,1234"); Wrote ":LOCK?";
            ReadValues [Sim.flag b]])).
Proof.
  split; [|split].
  - intros d w i. split; reflexivity.
  - intros v d w i. exists (str_of_Z (if is_True v then 1 else 0)%Z). reflexivity.
  - intros. apply locked_set_get_sim.
Qed.

(** C7: for each of the four members, setting [output_trigger] and then
    getting it from the simulated instrument returns the member that was
    set, whichever letters of the name the instrument answers in lower
    case ([casing f] is arbitrary): the lookup on the read side ignores
    case. *)
Theorem output_trigger_round_trip (parse_number : string -> option float)
    (t : TriggerOutput) (f : Sim.FakeLaser) w i :
  bind (output_trigger_set (session := Sim.fake_instrument parse_number) t)
    (fun _ => output_trigger_get (session := Sim.fake_instrument parse_number))
    (mkLaser (Some f) w i) =
    (Ok t,
     mkLaser (Some (Sim.with_answer None (Sim.with_trig (TriggerOutputEnum.name t) f))) w i,
     [Wrote (":TRIG0:OUTP " ++ TriggerOutputEnum.name t); Wrote ":TRIG0:OUTP?";
      ReadLine (Sim.recase (Sim.casing f) (TriggerOutputEnum.name t) ++ String newline "")]).
Proof. apply output_trigger_set_get_sim. Qed.

(** C8: on an open session the wavelength getter sends the wavelength
    query, multiplies the answer (metres) by 1e9, stores the product in
    [_wavelength] and returns it.  Against the simulated instrument, which
    answers with the wavelength it was sent divided by 1e9, setting a
    wavelength [x] in range and then getting it returns [x] itself. *)
Theorem wavelength_get_converts_and_round_trips :
  (forall (d d' : D) (x : float) (l : list float) w i,
      dev_read_ascii_values (dev_write ":SOURce0:WAVelength?" d) = (x :: l, d') ->
      wavelength_get (mkLaser (Some d) w i) =
        (Ok (x * 1e9)%float, mkLaser (Some d') (Some (x * 1e9)%float) i,
         [Wrote ":SOURce0:WAVelength?"; ReadValues (x :: l)]))
  /\ (forall (parse_number : string -> option float) (v : PyVal) (x : float)
        (f : Sim.FakeLaser) w i,
        parse_number (py_str repr_float v) = Some x ->
        nm_in_range x = true ->
        bind (wavelength_set (session := Sim.fake_instrument parse_number) repr_float v)
          (fun _ => wavelength_get (session := Sim.fake_instrument parse_number))
          (mkLaser (Some f) w i) =
          (Ok x,
           mkLaser (Some (Sim.with_answer None (Sim.with_wl (x / 1e9)%float f))) (Some x) i,
           [Wrote (":SOURce0:WAVelength " ++ py_str repr_float v ++ "NM");
            Wrote ":SOURce0:WAVelength?"; ReadValues [(x / 1e9)%float];
            Wrote ":SOURce0:WAVelength?"; ReadValues [(x / 1e9)%float]])).
Proof.
  split.
  - intros. now apply wavelength_get_connected.
  - intros. now apply wavelength_set_get_sim.
Qed.

(** C9: [_write] hands the raw message to the session exactly when the
    adapter holds one; without a session it returns normally, leaves the
    adapter untouched and sends nothing.  So does every method called on a
    disconnected adapter: it puts no event on the wire and leaves the
    adapter as it was; [open_communication] that fails to open a session
    is no exception. *)
Theorem write_iff_connected (message : string) (self : TunableLaser D) :
  (match device self with
   | Some d =>
       _write message self =
         (Ok tt, mkLaser (Some (dev_write message d)) (_wavelength self) (_idn self),
          [Wrote message])
   | None => _write message self = (Ok tt, self, [])
   end)
  /\ (In (Wrote message) (snd (_write message self)) <-> device self <> None)
  /\ (forall (c : call) w i,
        snd (perform (D := D) repr_float c (mkLaser None w i)) = []
        /\ snd (fst (perform (D := D) repr_float c (mkLaser None w i))) = mkLaser None w i)
  /\ (forall (e : exn) (address : string) w i,
        open_communication (D := D) (fun _ => Raise e) address (mkLaser None w i) =
          (Raise e, mkLaser None w i, [])).
Proof.
  assert (Hcalls : forall (c : call) w i,
             snd (perform (D := D) repr_float c (mkLaser None w i)) = []
             /\ snd (fst (perform (D := D) repr_float c (mkLaser None w i)))
                = mkLaser None w i).
  { intros c w i. destruct (perform_disconnected repr_float c w i) as [r ->].
    split; reflexivity. }
  destruct self as [[d|] w i]; cbn [device _wavelength _idn].
  - rewrite _write_connected. cbn [snd]. repeat split; try apply Hcalls.
    + intros _. discriminate.
    + intros _. now left.
  - rewrite _write_disconnected. cbn [snd]. repeat split; try apply Hcalls.
    + intros [].
    + intros E. now elim E.
Qed.

(** C10: the setters of [laser_status] and [locked] send the flag 1 for
    the boolean [True] alone; for any other value, the integer 1 among
    them, the test [is True] fails and they send 0. *)
Theorem flag_setters_test_identity (v : PyVal) (d : D) w i :
  let flag := if is_True v then "1" else "0" in
  laser_status_set v (mkLaser (Some d) w i) =
    (Ok tt, mkLaser (Some (dev_write (":SOURce0:POWer:STATe " ++ flag) d)) w i,
     [Wrote (":SOURce0:POWer:STATe " ++ flag)])
  /\ locked_set v (mkLaser (Some d) w i) =
    (Ok tt, mkLaser (Some (dev_write (":LOCK " ++ flag ++ ",1234") d)) w i,
     [Wrote (":LOCK " ++ flag ++ ",1234")])
  /\ (flag = "1" <-> v = VBool true)
  /\ (v = VInt 1 -> flag = "0").
Proof.
  intros flag. subst flag. repeat split.
  - unfold laser_status_set. destruct (is_True v); reflexivity.
  - unfold locked_set. destruct (is_True v); reflexivity.
  - intros E. apply is_True_iff. destruct (is_True v); [reflexivity | discriminate].
  - intros E. apply is_True_iff in E. now rewrite E.
  - now intros ->.
Qed.

End Claims.

(** * The claims at concrete inputs *)

(** C3 at the simulated instrument: the sweep of the source's own example,
    from the commands to the triple in nanometres. *)
Lemma configure_sweep_step_start_stop_witness :
  configure_sweep (session := Sim.fake_instrument Sim.parse_whole) Sim.repr_whole
    (VInt 1460) (VInt 1620) (VInt 10) (mkLaser (Some (Sim.bench [])) None None) =
  (Ok ((1460 / 1e9 * 1e9)%float, (1620 / 1e9 * 1e9)%float, (10 / 1e9 * 1e9)%float),
   mkLaser
     (Some (Sim.with_answer None
              (Sim.with_sw_stop (1620 / 1e9)%float
                 (Sim.with_sw_start (1460 / 1e9)%float
                    (Sim.with_sw_step (10 / 1e9)%float (Sim.bench []))))))
     None None,
   [Wrote ":SOURce0:WAVelength:SWEep:STEP 10NM";
    Wrote ":SOURce0:WAVelength:SWEep:STARt 1460NM";
    Wrote ":SOURce0:WAVelength:SWEep:STOP 1620NM";
    Wrote ":SOURce0:WAVelength:SWEep:STARt?"; ReadValues [(1460 / 1e9)%float];
    Wrote ":SOURce0:WAVelength:SWEep:STEP?"; ReadValues [(10 / 1e9)%float];
    Wrote ":SOURce0:WAVelength:SWEep:STOP?"; ReadValues [(1620 / 1e9)%float]]).
Proof.
  apply (proj1 (configure_sweep_step_start_stop
                  (session := Sim.fake_instrument Sim.parse_whole) Sim.repr_whole)
           (VInt 1460) (VInt 1620) (VInt 10) (Sim.bench [])
           (Sim.with_answer None
              (Sim.with_sw_stop (1620 / 1e9)%float
                 (Sim.with_sw_start (1460 / 1e9)%float
                    (Sim.with_sw_step (10 / 1e9)%float (Sim.bench [])))))
           (Sim.with_answer None
              (Sim.with_sw_stop (1620 / 1e9)%float
                 (Sim.with_sw_start (1460 / 1e9)%float
                    (Sim.with_sw_step (10 / 1e9)%float (Sim.bench [])))))
           (Sim.with_answer None
              (Sim.with_sw_stop (1620 / 1e9)%float
                 (Sim.with_sw_start (1460 / 1e9)%float
                    (Sim.with_sw_step (10 / 1e9)%float (Sim.bench [])))))
           (1460 / 1e9)%float (10 / 1e9)%float (1620 / 1e9)%float [] [] [] None None);
    reflexivity.
Defined.

(** C4 at the simulated instrument: a float is sent as Python prints it. *)
Lemma wavelength_set_write_then_get_witness :
  wavelength_set (session := Sim.fake_instrument Sim.parse_whole) Sim.repr_whole
    (VFloat 1550) (mkLaser (Some (Sim.bench [])) None None) =
  (Ok tt,
   mkLaser (Some (Sim.with_answer None (Sim.with_wl (1550 / 1e9)%float (Sim.bench []))))
     (Some (1550 / 1e9 * 1e9)%float) None,
   [Wrote ":SOURce0:WAVelength 1550.0NM"; Wrote ":SOURce0:WAVelength?";
    ReadValues [(1550 / 1e9)%float]]).
Proof.
  apply (wavelength_set_write_then_get
           (session := Sim.fake_instrument Sim.parse_whole) Sim.repr_whole
           (VFloat 1550) (Sim.bench [])
           (Sim.with_answer None (Sim.with_wl (1550 / 1e9)%float (Sim.bench [])))
           (1550 / 1e9)%float [] None None).
  reflexivity.
Defined.

(** C5 at the simulated instrument, whose trigger output is disabled: the
    answer is a member name and the getter returns the member. *)
Lemma output_trigger_get_lookup_witness :
  fst (fst (output_trigger_get (session := Sim.fake_instrument Sim.parse_whole)
              (mkLaser (Some (Sim.bench [true; true; true])) None None)))
  = Ok DISABLED.
Proof.
  refine (proj1 (proj2 (proj2
            (output_trigger_get_lookup (session := Sim.fake_instrument Sim.parse_whole)
               (Sim.bench [true; true; true])
               (Sim.with_answer None (Sim.bench [true; true; true]))
               ("disABLED" ++ String newline "") None None _))) DISABLED _);
    reflexivity.
Defined.

(** C5 as stated fails: the instrument answers [SWSTARTED], the name of
    no member; the getter raises [KeyError] with that text, which is not a
    [ProtocolError]. *)
Lemma output_trigger_get_unknown_raises_KeyError :
  (forall t, TriggerOutputEnum.name t <> "SWSTARTED")
  /\ fst (fst (output_trigger_get (session := Sim.fake_instrument Sim.parse_whole)
                 (mkLaser (Some (Sim.with_trig "SWSTARTED" (Sim.bench []))) None None)))
     = Raise (KeyError "SWSTARTED")
  /\ fst (fst (output_trigger_get (session := Sim.fake_instrument Sim.parse_whole)
                 (mkLaser (Some (Sim.with_trig "SWSTARTED" (Sim.bench []))) None None)))
     <> Raise ProtocolError.
Proof.
  split; [|split].
  - intros []; discriminate.
  - reflexivity.
  - discriminate.
Qed.

(** C8 at the simulated instrument: 1550.0 nm goes out as [1550.0NM],
    comes back as 1.55e-06 m and is returned as 1550.0 nm. *)
Lemma wavelength_get_converts_and_round_trips_witness :
  bind (wavelength_set (session := Sim.fake_instrument Sim.parse_whole) Sim.repr_whole
          (VFloat 1550))
    (fun _ => wavelength_get (session := Sim.fake_instrument Sim.parse_whole))
    (mkLaser (Some (Sim.bench [])) None None) =
  (Ok 1550%float,
   mkLaser (Some (Sim.with_answer None (Sim.with_wl (1550 / 1e9)%float (Sim.bench []))))
     (Some 1550%float) None,
   [Wrote ":SOURce0:WAVelength 1550.0NM";
    Wrote ":SOURce0:WAVelength?"; ReadValues [(1550 / 1e9)%float];
    Wrote ":SOURce0:WAVelength?"; ReadValues [(1550 / 1e9)%float]]).
Proof.
  apply (proj2 (wavelength_get_converts_and_round_trips
                  (session := Sim.fake_instrument Sim.parse_whole) Sim.repr_whole)
           Sim.parse_whole (VFloat 1550) 1550%float (Sim.bench []) None None);
    reflexivity.
Defined.

(** * Beyond the claims *)

(** ** Whole programs on any session *)

Section Invariants.

Context {D : Type} {session : Instrument D}.
Variable repr_float : float -> string.

Lemma reads_follow_writes_weaken (t : list io_event) :
  reads_follow_writes false t = true -> reads_follow_writes true t = true.
Proof. destruct t as [|[] t]; simpl; try easy. Qed.

Lemma reads_follow_writes_app (b : bool) (t1 t2 : list io_event) :
  reads_follow_writes b t1 = true -> reads_follow_writes false t2 = true ->
  reads_follow_writes b (t1 ++ t2)%list = true.
Proof.
  revert b. induction t1 as [|e t1 IH]; intros b H1 H2.
  - destruct b; [now apply reads_follow_writes_weaken | exact H2].
  - destruct e; simpl in *; try (now apply IH);
      apply andb_prop in H1; destruct H1 as [-> H1]; now apply IH.
Qed.

Lemma perform_keeps (c : call) (self : TunableLaser D) :
  kept self (perform repr_float c self)
  /\ (touches_wavelength c = false ->
      _wavelength (snd (fst (perform repr_float c self))) = _wavelength self).
Proof.
  destruct self as [[d|] w i].
  - destruct c; run; unfold mul_1e9, py_int, py_upper, item0; cbn; answers;
      unfold kept; cbn; repeat split; try easy.
  - destruct (perform_disconnected repr_float c w i) as [r ->].
    unfold kept; cbn. repeat split; easy.
Qed.

Lemma perform_all_keeps (cs : list call) (self : TunableLaser D) :
  kept self (perform_all repr_float cs self)
  /\ (forallb (fun c => negb (touches_wavelength c)) cs = true ->
      _wavelength (snd (fst (perform_all repr_float cs self))) = _wavelength self).
Proof.
  revert self. induction cs as [|c cs IH]; intros self.
  - unfold kept; cbn. repeat split; easy.
  - cbn [perform_all forallb]. unfold bind.
    destruct (perform_keeps c self) as [(Hi & Hd & Ht) Hw].
    destruct (perform repr_float c self) as [[[[]|e] s1] t1]; cbn [fst snd] in *.
    + destruct (IH s1) as [(Hi' & Hd' & Ht') Hw'].
      destruct (perform_all repr_float cs s1) as [[r2 s2] t2]; cbn [fst snd] in *.
      unfold kept; cbn [fst snd]. repeat split.
      * congruence.
      * intros E. now apply Hd, Hd'.
      * intros E. now apply Hd', Hd.
      * now apply reads_follow_writes_app.
      * intros E. apply andb_prop in E. destruct E as [E1 E2].
        apply negb_true_iff in E1. rewrite (Hw' E2). now apply Hw.
    + unfold kept; cbn [fst snd]. split; [split; [exact Hi | split; [exact Hd | exact Ht]]|].
      intros E. apply andb_prop in E. destruct E as [E1 _].
      apply negb_true_iff in E1. now apply Hw.
Qed.

(** X1: whatever the session answers, a run of calls leaves the identity
    string as it was and neither gains nor loses the session: an adapter
    that holds one still holds it afterwards, [close_communication]
    included, and one that holds none still holds none. *)
Theorem programs_keep_identity_and_session (cs : list call) (self : TunableLaser D) :
  _idn (snd (fst (perform_all repr_float cs self))) = _idn self
  /\ (device (snd (fst (perform_all repr_float cs self))) = None <-> device self = None).
Proof.
  destruct (perform_all_keeps cs self) as [(Hi & Hd & _) _]. now split.
Qed.

(** X2: whatever the session answers, in the traffic of a run of calls
    every read comes right after a write: the adapter never reads without
    having just sent a query. *)
Theorem programs_read_after_write (cs : list call) (self : TunableLaser D) :
  reads_follow_writes false (snd (perform_all repr_float cs self)) = true.
Proof.
  destruct (perform_all_keeps cs self) as [(_ & _ & Ht) _]. exact Ht.
Qed.

(** X3: a run of calls without a wavelength get or set leaves the cached
    wavelength alone, and with it the string form of the adapter, whatever
    else the calls changed on the instrument. *)
Theorem programs_without_wavelength_keep_repr (cs : list call) (self : TunableLaser D) :
  forallb (fun c => negb (touches_wavelength c)) cs = true ->
  _wavelength (snd (fst (perform_all repr_float cs self))) = _wavelength self
  /\ __repr__ repr_float (snd (fst (perform_all repr_float cs self)))
     = __repr__ repr_float self.
Proof.
  intros E. destruct (perform_all_keeps cs self) as [(Hi & _ & _) Hw].
  specialize (Hw E). split; [exact Hw|]. unfold __repr__. now rewrite Hi, Hw.
Qed.

End Invariants.

(** ** Text of a response *)

Lemma lstrip_nl_spec (s : string) :
  exists a, s = newlines a ++ lstrip_nl s /\ starts_with_newline (lstrip_nl s) = false.
Proof.
  induction s as [|c s (a & E & H)].
  - now exists 0.
  - cbn [lstrip_nl]. destruct (Ascii.eqb_spec c newline) as [->|N].
    + exists (S a). cbn [newlines append]. split; [now rewrite <- E | exact H].
    + exists 0. split; [reflexivity|]. cbn. now apply Ascii.eqb_neq.
Qed.

Lemma rstrip_nl_spec (s : string) :
  exists b, s = rstrip_nl s ++ newlines b /\ ends_with_newline (rstrip_nl s) = false.
Proof.
  induction s as [|c s (b & E & H)].
  - now exists 0.
  - cbn [rstrip_nl]. destruct (rstrip_nl s) as [|c' r'] eqn:R.
    + destruct (Ascii.eqb_spec c newline) as [->|N].
      * exists (S b). cbn [newlines append]. split; [now rewrite E | reflexivity].
      * exists b. split; [now rewrite E|]. cbn. now apply Ascii.eqb_neq.
    + exists b. split; [now rewrite E at 1|]. exact H.
Qed.

Lemma rstrip_nl_keeps_start (s : string) :
  starts_with_newline s = false -> starts_with_newline (rstrip_nl s) = false.
Proof.
  destruct s as [|c s]; [easy|]. cbn [rstrip_nl starts_with_newline]. intros N.
  destruct (rstrip_nl s); [now rewrite N | exact N].
Qed.

Lemma append_assoc (s t u : string) : (s ++ t) ++ u = s ++ t ++ u.
Proof. induction s as [|c s IH]; simpl; [reflexivity | now rewrite IH]. Qed.

(** [strip_nl] takes newlines off both ends, all of them, and nothing
    else. *)
Lemma strip_nl_spec (s : string) :
  exists a b,
    s = newlines a ++ strip_nl s ++ newlines b
    /\ starts_with_newline (strip_nl s) = false
    /\ ends_with_newline (strip_nl s) = false.
Proof.
  destruct (lstrip_nl_spec s) as (a & Ea & Ha).
  destruct (rstrip_nl_spec (lstrip_nl s)) as (b & Eb & Hb).
  exists a, b. unfold strip_nl. repeat split.
  - now rewrite <- Eb.
  - now apply rstrip_nl_keeps_start.
  - exact Hb.
Qed.

(** ** Methods outside the claims *)

Section MoreMethods.

Context {D : Type} {session : Instrument D}.
Variable repr_float : float -> string.

(** X4: on an open session [_read] returns the response without the
    newlines at its two ends: all of them are gone, and nothing else of the
    response is (a carriage return stays). *)
Theorem _read_strips_newlines (d d' : D) (s : string) w i :
  dev_read d = (s, d') ->
  exists (a b : nat) (r : string),
    _read (mkLaser (Some d) w i) = (Ok (Some r), mkLaser (Some d') w i, [ReadLine s])
    /\ s = newlines a ++ r ++ newlines b
    /\ starts_with_newline r = false
    /\ ends_with_newline r = false.
Proof.
  intros E. destruct (strip_nl_spec s) as (a & b & Hs & H1 & H2).
  exists a, b, (strip_nl s). split; [|easy].
  now apply _read_connected.
Qed.

(** X5: [open_communication] that gets a session asks for the identity,
    stores the answer stripped of its newlines in [_idn] and returns it;
    the cached wavelength stays.  It does so on any adapter: a session held
    before is replaced without being closed.  When the resource manager
    raises, the exception goes to the caller and the adapter is as it
    was. *)
Theorem open_communication_identifies (open_resource : string -> result D)
    (address : string) (self : TunableLaser D) :
  (forall (d d' : D) (s : string),
      open_resource address = Ok d ->
      dev_read (dev_write "*IDN?" d) = (s, d') ->
      open_communication open_resource address self =
        (Ok (Some (strip_nl s)),
         mkLaser (Some d') (_wavelength self) (Some (strip_nl s)),
         [Wrote "*IDN?"; ReadLine s]))
  /\ (forall e : exn,
        open_resource address = Raise e ->
        open_communication open_resource address self = (Raise e, self, [])).
Proof.
  split.
  - intros d d' s Ho Er. unfold open_communication, bind at 1, lift. rewrite Ho.
    unfold bind at 1. cbn [set_device _wavelength _idn].
    unfold bind. rewrite _write_connected, (_read_connected _ _ _ _ _ Er).
    reflexivity.
  - intros e Ho. unfold open_communication, bind, lift. now rewrite Ho.
Qed.

(** X6: what each method gives on an adapter that holds no session.  The
    setters of one command and [start_sweep] return normally, and
    [get_wavelength_limits] returns a pair of [None]; but the wavelength
    setter and [configure_sweep], which read back, raise [TypeError], and
    [close_communication] raises [AttributeError]. *)
Theorem methods_before_open (v v1 v2 : PyVal) (t : TriggerOutput) (m : SweepMode) w i :
  let self : TunableLaser D := mkLaser None w i in
  get_wavelength_limits self = (Ok (None, None), self, [])
  /\ output_trigger_set t self = (Ok tt, self, [])
  /\ sweep_cycles_set repr_float v self = (Ok tt, self, [])
  /\ sweep_mode_set m self = (Ok tt, self, [])
  /\ sweep_speed_set repr_float v self = (Ok tt, self, [])
  /\ laser_status_set v self = (Ok tt, self, [])
  /\ locked_set v self = (Ok tt, self, [])
  /\ start_sweep self = (Ok tt, self, [])
  /\ wavelength_set repr_float v self = (Raise TypeError, self, [])
  /\ configure_sweep repr_float v v1 v2 self = (Raise TypeError, self, [])
  /\ close_communication self = (Raise AttributeError, self, []).
Proof. cbv zeta. repeat split. Qed.




Lemma sweep_mode_getitem_iff (key : string) (m : SweepMode) :
  SweepModeEnum.getitem key = Ok m <-> SweepModeEnum.name m = key.
Proof.
  split.
  - unfold SweepModeEnum.getitem.
    destruct (find _ _) as [m'|] eqn:E; [|discriminate].
    intros [= <-]. apply find_some in E. destruct E as [_ E].
    now apply String.eqb_eq in E.
  - intros <-. now destruct m.
Qed.

(** X10: the [sweep_mode] getter sends the query, strips the newlines of
    the answer, puts it in upper case and looks it up among STEP, MAN and
    CONT: an answer that is one of the three names in any letter case
    gives that mode, any other makes the lookup raise [KeyError] with the
    upper-cased text. *)
Theorem sweep_mode_get_lookup (d d' : D) (r : string) w i :
  dev_read (dev_write ":SOURce0:WAVelength:SWEep:MODE?" d) = (r, d') ->
  let key := upper (strip_nl r) in
  let out := sweep_mode_get (mkLaser (Some d) w i) in
  snd out = [Wrote ":SOURce0:WAVelength:SWEep:MODE?"; ReadLine r]
  /\ snd (fst out) = mkLaser (Some d') w i
  /\ (forall m, fst (fst out) = Ok m <-> SweepModeEnum.name m = key)
  /\ ((forall m, SweepModeEnum.name m <> key) -> fst (fst out) = Raise (KeyError key)).
Proof.
  intros E key out.
  assert (Eo : out = (SweepModeEnum.getitem key, mkLaser (Some d') w i,
                      [Wrote ":SOURce0:WAVelength:SWEep:MODE?"; ReadLine r])).
  { subst out. unfold sweep_mode_get, bind.
    rewrite _write_connected, (_read_connected _ _ _ _ _ E).
    unfold lift, py_upper. fold key. now destruct (SweepModeEnum.getitem key). }
  rewrite Eo. cbn [fst snd]. repeat split.
  - apply sweep_mode_getitem_iff.
  - apply sweep_mode_getitem_iff.
  - intros Hn. destruct (SweepModeEnum.getitem key) as [m|e] eqn:G.
    + apply sweep_mode_getitem_iff in G. now elim (Hn m).
    + unfold SweepModeEnum.getitem in G. destruct (find _ _); congruence.
Qed.

End MoreMethods.

(** ** Reading a number as an integer *)

Section Truncation.

Local Open Scope Z_scope.

(** The significand of a float has at most 53 bits, and exactly 53 above
    the smallest exponent. *)
Lemma Prim2SF_digits (x : float) (s : bool) (m : positive) (e : Z) :
  Prim2SF x = S754_finite s m e ->
  Zpos m < 2 ^ 53 /\ (-1074 < e -> 2 ^ 52 <= Zpos m).
Proof.
  intros E. pose proof (Prim2SF_valid x) as V. rewrite E in V.
  cbn [valid_binary] in V. unfold bounded in V.
  apply andb_prop in V. destruct V as [V _].
  unfold canonical_mantissa, fexp, emin, prec, emax in V. apply Z.eqb_eq in V.
  rewrite digits2_pos_size in V.
  pose proof (Pos.size_gt m) as Hgt. pose proof (Pos.size_le m) as Hle.
  apply Pos2Z.pos_lt_pos in Hgt. apply Pos2Z.pos_le_pos in Hle.
  rewrite Pos2Z.inj_pow in Hgt, Hle. change (Z.pos m~0) with (2 * Z.pos m) in Hle.
  set (k := Zpos (Pos.size m)) in *.
  assert (Hk : 0 < k) by (subst k; lia).
  split.
  - assert (2 ^ k <= 2 ^ 53) by (apply Z.pow_le_mono_r; lia). lia.
  - intros He. replace k with 53 in Hle by lia. lia.
Qed.

Lemma shiftl_small (m : positive) (e : Z) :
  e < 0 -> Zpos m < 2 ^ (- e) -> Z.shiftl (Zpos m) e = 0.
Proof.
  intros He Hm. rewrite Z.shiftl_div_pow2 by lia. apply Z.div_small. lia.
Qed.

Lemma shiftl_large (m : positive) (e : Z) :
  (e < 0 -> 2 ^ (- e) <= Zpos m) -> 0 < Z.shiftl (Zpos m) e.
Proof.
  intros Hm. destruct (Z.lt_ge_cases e 0) as [He|He].
  - rewrite Z.shiftl_div_pow2 by lia.
    apply Z.div_str_pos. split; [apply Z.pow_pos_nonneg; lia | now apply Hm].
  - rewrite Z.shiftl_mul_pow2 by lia.
    apply Z.mul_pos_pos; [lia | apply Z.pow_pos_nonneg; lia].
Qed.

(** Comparing two positive finite floats. *)
Lemma SFltb_finite (m c : positive) (e k : Z) :
  SFltb (S754_finite false m e) (S754_finite false c k) = true ->
  e < k \/ (e = k /\ Zpos m < Zpos c).
Proof.
  unfold SFltb, SFcompare.
  change (Pos.compare_cont Eq m c) with (Zpos m ?= Zpos c).
  destruct (Z.compare_spec e k) as [->|L|L]; try discriminate.
  - destruct (Z.compare_spec (Zpos m) (Zpos c)); try discriminate. now right.
  - now left.
Qed.

Lemma SFleb_finite (m c : positive) (e k : Z) :
  SFleb (S754_finite false c k) (S754_finite false m e) = true ->
  k < e \/ (k = e /\ Zpos c <= Zpos m).
Proof.
  unfold SFleb, SFcompare.
  change (Pos.compare_cont Eq c m) with (Zpos c ?= Zpos m).
  destruct (Z.compare_spec k e) as [->|L|L]; try discriminate.
  - destruct (Z.compare_spec (Zpos c) (Zpos m)); try discriminate; right; lia.
  - now left.
Qed.

(** [int(x)] is 0 for the floats of magnitude below 1. *)
Lemma int_of_float_below_one (x : float) :
  (abs x <? 1)%float = true -> int_of_float x = Ok 0.
Proof.
  rewrite FloatAxioms.ltb_spec, abs_spec. unfold int_of_float.
  change (Prim2SF 1) with (S754_finite false 4503599627370496 (-52)).
  destruct (Prim2SF x) as [s|s| |s m e] eqn:E; cbn [SFabs]; intros H.
  - reflexivity.
  - discriminate H.
  - discriminate H.
  - destruct (Prim2SF_digits x s m e E) as [H53 _].
    assert (Z0 : Z.shiftl (Zpos m) e = 0).
    { apply SFltb_finite in H. apply shiftl_small; [lia|].
      destruct H as [L|[-> L]]; [|exact L].
      assert (2 ^ 53 <= 2 ^ (- e)) by (apply Z.pow_le_mono_r; lia). lia. }
    rewrite Z0. now destruct s.
Qed.

(** [int(x)] is not 0 for the finite floats of magnitude 1 or more. *)
Lemma int_of_float_one_or_more (x : float) :
  (1 <=? abs x)%float = true -> (abs x <? infinity)%float = true ->
  exists z, int_of_float x = Ok z /\ z <> 0.
Proof.
  rewrite FloatAxioms.leb_spec, FloatAxioms.ltb_spec, abs_spec. unfold int_of_float.
  change (Prim2SF 1) with (S754_finite false 4503599627370496 (-52)).
  change (Prim2SF infinity) with (S754_infinity false).
  destruct (Prim2SF x) as [s|s| |s m e] eqn:E; cbn [SFabs]; intros H Hf.
  - discriminate H.
  - discriminate Hf.
  - discriminate H.
  - destruct (Prim2SF_digits x s m e E) as [_ H52].
    assert (P : 0 < Z.shiftl (Zpos m) e).
    { apply shiftl_large. intros He.
      apply SFleb_finite in H. destruct H as [L|[<- L]].
      - assert (2 ^ (- e) <= 2 ^ 52) by (apply Z.pow_le_mono_r; lia).
        specialize (H52 ltac:(lia)). lia.
      - exact L. }
    eexists. split; [reflexivity|]. destruct s; lia.
Qed.

Lemma int_of_float_nan (x : float) :
  (x =? x)%float = false -> int_of_float x = Raise ValueError.
Proof.
  rewrite FloatAxioms.eqb_spec. unfold int_of_float, SFeqb, SFcompare.
  destruct (Prim2SF x) as [s|s| |s m e]; try discriminate; try reflexivity.
  - now destruct s.
  - change (Pos.compare_cont Eq m m) with (m ?= m)%positive.
    rewrite Z.compare_refl, Pos.compare_refl. now destruct s.
Qed.

Lemma int_of_float_infinite (x : float) :
  (abs x =? infinity)%float = true -> int_of_float x = Raise OverflowError.
Proof.
  rewrite FloatAxioms.eqb_spec, abs_spec. unfold int_of_float.
  change (Prim2SF infinity) with (S754_infinity false).
  destruct (Prim2SF x) as [s|s| |s m e]; cbn [SFabs];
    unfold SFeqb, SFcompare; try discriminate; reflexivity.
Qed.

Lemma Pos_iter_xO (m k : positive) :
  Zpos (Pos.iter xO m k) = Zpos m * 2 ^ Zpos k.
Proof.
  rewrite (Pos.iter_swap_gen _ _ Zpos xO (Z.mul 2)) by reflexivity.
  change (Pos.iter (Z.mul 2) (Zpos m) k) with (Z.shiftl (Zpos m) (Zpos k)).
  apply Z.shiftl_mul_pow2. lia.
Qed.

(** [int(float(n))] is [n] for the whole numbers that a float holds
    exactly. *)
Lemma int_of_float_of_Z (n : Z) :
  0 <= n < 2 ^ 53 -> int_of_float (of_uint63 (Uint63.of_Z n)) = Ok n.
Proof.
  intros Hn. unfold int_of_float.
  rewrite FloatAxioms.of_uint63_spec, Uint63.of_Z_spec.
  rewrite Z.mod_small by (change Uint63.wB with (2 ^ 63); lia).
  destruct n as [|p|p]; [reflexivity| |lia].
  unfold binary_normalize, binary_round, shl_align.
  set (k := Zpos (digits2_pos p)).
  assert (Hk : 0 < k <= 53 /\ 2 ^ (k - 1) <= Zpos p < 2 ^ k).
  { subst k. rewrite digits2_pos_size.
    pose proof (Pos.size_gt p) as Hgt. pose proof (Pos.size_le p) as Hle.
    apply Pos2Z.pos_lt_pos in Hgt. apply Pos2Z.pos_le_pos in Hle.
    rewrite Pos2Z.inj_pow in Hgt, Hle. change (Z.pos p~0) with (2 * Z.pos p) in Hle.
    set (k := Zpos (Pos.size p)) in *.
    assert (0 < k) by (subst k; lia).
    assert (2 ^ k = 2 * 2 ^ (k - 1)).
    { rewrite <- Z.pow_succ_r by lia. f_equal. lia. }
    repeat split; try lia.
    destruct (Z.le_gt_cases k 53) as [L|G]; [exact L|].
    assert (2 ^ 54 <= 2 ^ k) by (apply Z.pow_le_mono_r; lia). lia. }
  destruct Hk as [Hk Hp].
  unfold fexp, emin, prec, emax. rewrite Z.add_0_r.
  replace (Z.max (k - 53) (3 - 1024 - 53) - 0) with (k - 53) by lia.
  replace (Z.max (k - 53) (3 - 1024 - 53)) with (k - 53) by lia.
  destruct (k - 53) as [|q|q] eqn:Ek; [|lia|].
  - rewrite binary_round_aux_53; cbn [round_nearest_even]; try lia.
    + rewrite Z.shiftl_0_r. reflexivity.
    + replace k with 53 in Hp by lia. exact Hp.
    + replace k with 53 in Hp by lia. exact Hp.
  - assert (Hs : 2 ^ 52 <= Zpos (Pos.iter xO p q) < 2 ^ 53).
    { rewrite Pos_iter_xO.
      assert (E1 : 2 ^ 52 = 2 ^ (k - 1) * 2 ^ Zpos q).
      { rewrite <- Z.pow_add_r by lia. f_equal. lia. }
      assert (E2 : 2 ^ 53 = 2 ^ k * 2 ^ Zpos q).
      { rewrite <- Z.pow_add_r by lia. f_equal. lia. }
      assert (0 < 2 ^ Zpos q) by (apply Z.pow_pos_nonneg; lia).
      rewrite E1, E2. split; [apply Z.mul_le_mono_nonneg_r | apply Z.mul_lt_mono_pos_r]; lia. }
    rewrite binary_round_aux_53; cbn [round_nearest_even]; try lia.
    cbn [Z.to_pos]. rewrite Z.shiftl_div_pow2 by lia.
    rewrite Pos_iter_xO. change (- Zneg q) with (Zpos q).
    rewrite Z.div_mul; [reflexivity|].
    apply Z.pow_nonzero; lia.
Qed.

End Truncation.

Section NumbersAsIntegers.

Context {D : Type} {session : Instrument D}.

(** X11: the [laser_status] getter reads the first number of the answer
    through [bool(int(...))]: an answer of magnitude below 1, 0.5 say, is
    [False], a finite answer of magnitude 1 or more is [True], a nan makes
    it raise [ValueError] and an infinity [OverflowError]. *)
Theorem laser_status_get_reads_magnitude (x : float) (d d' : D) (l : list float) w i :
  dev_read_ascii_values (dev_write ":SOURce0:POWer:STATe?" d) = (x :: l, d') ->
  let out := laser_status_get (mkLaser (Some d) w i) in
  snd out = [Wrote ":SOURce0:POWer:STATe?"; ReadValues (x :: l)]
  /\ snd (fst out) = mkLaser (Some d') w i
  /\ ((abs x <? 1)%float = true -> fst (fst out) = Ok false)
  /\ ((1 <=? abs x)%float = true -> (abs x <? infinity)%float = true ->
      fst (fst out) = Ok true)
  /\ ((x =? x)%float = false -> fst (fst out) = Raise ValueError)
  /\ ((abs x =? infinity)%float = true -> fst (fst out) = Raise OverflowError).
Proof.
  intros E out.
  assert (Eo : out = (match int_of_float x with
                      | Ok z => Ok (py_bool z)
                      | Raise e => Raise e
                      end, mkLaser (Some d') w i,
                      [Wrote ":SOURce0:POWer:STATe?"; ReadValues (x :: l)])).
  { subst out. unfold laser_status_get, bind.
    rewrite _write_connected, (_read_number_connected _ _ _ _ _ _ E).
    unfold lift, py_int. now destruct (int_of_float x). }
  rewrite Eo. cbn [fst snd]. repeat split.
  - intros H. now rewrite (int_of_float_below_one x H).
  - intros H1 H2. destruct (int_of_float_one_or_more x H1 H2) as (z & -> & Hz).
    unfold py_bool. apply Z.eqb_neq in Hz. now rewrite Hz.
  - intros H. now rewrite (int_of_float_nan x H).
  - intros H. now rewrite (int_of_float_infinite x H).
Qed.

(** X12: the [sweep_cycles] getter returns [int] of the first number of
    the answer, so a count that the instrument answers as the float of a
    whole number below 2^53 comes back as that number; a nan makes it
    raise [ValueError] and an infinity [OverflowError]. *)
Theorem sweep_cycles_get_whole (x : float) (d d' : D) (l : list float) w i :
  dev_read_ascii_values (dev_write ":SOURce0:WAVelength:SWEep:CYCLes?" d) = (x :: l, d') ->
  let out := sweep_cycles_get (mkLaser (Some d) w i) in
  snd out = [Wrote ":SOURce0:WAVelength:SWEep:CYCLes?"; ReadValues (x :: l)]
  /\ snd (fst out) = mkLaser (Some d') w i
  /\ (forall n : Z, (0 <= n < 2 ^ 53)%Z -> x = of_uint63 (Uint63.of_Z n) ->
      fst (fst out) = Ok n)
  /\ ((x =? x)%float = false -> fst (fst out) = Raise ValueError)
  /\ ((abs x =? infinity)%float = true -> fst (fst out) = Raise OverflowError).
Proof.
  intros E out.
  assert (Eo : out = (int_of_float x, mkLaser (Some d') w i,
                      [Wrote ":SOURce0:WAVelength:SWEep:CYCLes?"; ReadValues (x :: l)])).
  { subst out. unfold sweep_cycles_get, bind.
    rewrite _write_connected, (_read_number_connected _ _ _ _ _ _ E).
    unfold lift, py_int. now destruct (int_of_float x). }
  rewrite Eo. cbn [fst snd]. repeat split.
  - intros n Hn ->. now apply int_of_float_of_Z.
  - apply int_of_float_nan.
  - apply int_of_float_infinite.
Qed.

End NumbersAsIntegers.

(** * The extra properties at concrete inputs *)

(** X3 on the simulated instrument: locking, reading the lock, starting a
    sweep and asking for the limits leave the string form as it was. *)
Lemma programs_without_wavelength_keep_repr_witness :
  _wavelength
    (snd (fst (perform_all (session := Sim.fake_instrument Sim.parse_whole) Sim.repr_whole
                 [SetLocked (VBool true); GetLocked; StartSweep; GetWavelengthLimits]
                 (mkLaser (Some (Sim.bench [])) (Some 1550%float) (Some "N7778C")))))
  = Some 1550%float
  /\ __repr__ Sim.repr_whole
       (snd (fst (perform_all (session := Sim.fake_instrument Sim.parse_whole) Sim.repr_whole
                    [SetLocked (VBool true); GetLocked; StartSweep; GetWavelengthLimits]
                    (mkLaser (Some (Sim.bench [])) (Some 1550%float) (Some "N7778C")))))
     = "TunableLaser:N7778C at 1550.0nm".
Proof.
  apply (programs_without_wavelength_keep_repr
           (session := Sim.fake_instrument Sim.parse_whole) Sim.repr_whole
           [SetLocked (VBool true); GetLocked; StartSweep; GetWavelengthLimits]
           (mkLaser (Some (Sim.bench [])) (Some 1550%float) (Some "N7778C"))).
  reflexivity.
Defined.

(** X4 on a scripted session: the newlines around the answer go, the
    carriage return stays. *)
Lemma _read_strips_newlines_witness :
  exists (a b : nat) (r : string),
    _read (session := Replay.instrument)
      (mkLaser (Some [Sim.Text (String newline ("N7778C" ++ String "013" (String newline "")))])
         None None)
    = (Ok (Some r), mkLaser (Some []) None None,
       [ReadLine (String newline ("N7778C" ++ String "013" (String newline "")))])
    /\ String newline ("N7778C" ++ String "013" (String newline ""))
       = newlines a ++ r ++ newlines b
    /\ starts_with_newline r = false
    /\ ends_with_newline r = false.
Proof.
  apply (_read_strips_newlines (session := Replay.instrument)
           [Sim.Text (String newline ("N7778C" ++ String "013" (String newline "")))] []
           (String newline ("N7778C" ++ String "013" (String newline ""))) None None).
  reflexivity.
Defined.

(** X5 on a scripted session that identifies itself. *)
Lemma open_communication_identifies_witness :
  open_communication (session := Replay.instrument)
    (fun _ => Ok [Sim.Text ("Keysight,N7778C" ++ String newline "")])
    VISA_ADDRESS (mkLaser (Some []) (Some 1550%float) None)
  = (Ok (Some "Keysight,N7778C"),
     mkLaser (Some []) (Some 1550%float) (Some "Keysight,N7778C"),
     [Wrote "*IDN?"; ReadLine ("Keysight,N7778C" ++ String newline "")]).
Proof.
  apply (proj1 (open_communication_identifies (session := Replay.instrument)
                  (fun _ => Ok [Sim.Text ("Keysight,N7778C" ++ String newline "")])
                  VISA_ADDRESS (mkLaser (Some []) (Some 1550%float) None))
           [Sim.Text ("Keysight,N7778C" ++ String newline "")] []
           ("Keysight,N7778C" ++ String newline ""));
    reflexivity.
Defined.


(** X10 on a scripted session that answers in lower case. *)
Lemma sweep_mode_get_lookup_witness :
  fst (fst (sweep_mode_get (session := Replay.instrument)
              (mkLaser (Some [Sim.Text ("cont" ++ String newline "")]) None None)))
  = Ok CONT.
Proof.
  apply (proj1 (proj2 (proj2
           (sweep_mode_get_lookup (session := Replay.instrument)
              [Sim.Text ("cont" ++ String newline "")] []
              ("cont" ++ String newline "") None None eq_refl))) CONT).
  reflexivity.
Defined.

(** X11 on a scripted session that answers one half. *)
Lemma laser_status_get_reads_magnitude_witness :
  fst (fst (laser_status_get (session := Replay.instrument)
              (mkLaser (Some [Sim.Numbers [0.5%float]]) None None)))
  = Ok false.
Proof.
  apply (proj1 (proj2 (proj2
           (laser_status_get_reads_magnitude (session := Replay.instrument)
              0.5%float [Sim.Numbers [0.5%float]] [] [] None None eq_refl)))).
  reflexivity.
Defined.

(** X12 on a scripted session that answers two cycles. *)
Lemma sweep_cycles_get_whole_witness :
  fst (fst (sweep_cycles_get (session := Replay.instrument)
              (mkLaser (Some [Sim.Numbers [2%float]]) None None)))
  = Ok 2%Z.
Proof.
  apply (proj1 (proj2 (proj2
           (sweep_cycles_get_whole (session := Replay.instrument)
              2%float [Sim.Numbers [2%float]] [] [] None None eq_refl))) 2%Z).
  - lia.
  - reflexivity.
Defined.
